(** * Google Drive upload bot: a shallow embedding of [main.py]

    The script walks a local directory, resolves one destination folder on
    the remote store and pushes every discovered file through an
    upload-or-skip step, sleeping after each batch.

    The embedding keeps the shape of the Python code:
    - the remote service ([self.service]) is a store of file resources with
      the two calls the script issues, [files().list] and [files().create];
      a call may raise, which is decided by a script of fault flags held by
      the service (one flag is consumed per call);
    - methods of [GoogleDriveUploadBot] are computations in a small monad
      that threads the bot, may raise a Python exception and records what
      the run does (remote calls, log records, prints, sleeps) in order;
    - the host (file system, stored OAuth token, [mimetypes] table) is a
      parameter of the development.

    Strings are ASCII strings; paths use the POSIX separator.  The
    exceptions of the model are those of class [Exception]; the interrupt
    signal ([KeyboardInterrupt]) and the elapsed time of the summary are
    outside it. *)

From Stdlib Require Import List String Ascii ZArith Lia Bool Arith DecimalString.
Import ListNotations.
Open Scope string_scope.
Open Scope Z_scope.

(** ** Strings and paths *)

Module Str.

(** [str.lower()] on ASCII text. *)
Definition lower_ascii (c : ascii) : ascii :=
  let n := nat_of_ascii c in
  if (Nat.leb 65 n && Nat.leb n 90)%bool then ascii_of_nat (n + 32) else c.

Fixpoint lower (s : string) : string :=
  match s with
  | EmptyString => EmptyString
  | String c r => String (lower_ascii c) (lower r)
  end.

(** [s.rfind(c)]: index of the last occurrence, [None] for Python's -1. *)
Fixpoint rfind (c : ascii) (s : string) : option nat :=
  match s with
  | EmptyString => None
  | String a r =>
      match rfind c r with
      | Some i => Some (S i)
      | None => if Ascii.eqb a c then Some O else None
      end
  end.

(** [s[i:]] *)
Fixpoint drop (i : nat) (s : string) : string :=
  match i, s with
  | O, _ => s
  | S j, EmptyString => EmptyString
  | S j, String _ r => drop j r
  end.

(** [s * n] *)
Fixpoint repeat (s : string) (n : nat) : string :=
  match n with
  | O => EmptyString
  | S k => s ++ repeat s k
  end.

Definition of_nat (n : nat) : string := NilEmpty.string_of_uint (Nat.to_uint n).

(** [', '.join(l)] *)
Fixpoint join (sep : string) (l : list string) : string :=
  match l with
  | [] => EmptyString
  | [x] => x
  | x :: r => x ++ sep ++ join sep r
  end.

(** [os.path.basename] of [posixpath]: [i = p.rfind('/') + 1; p[i:]]. *)
Definition basename (p : string) : string :=
  match rfind "/"%char p with
  | Some i => drop (S i) p
  | None => p
  end.

(** [PurePath.suffix]: with [name] the final component and
    [i = name.rfind('.')], it is [name[i:]] when [0 < i < len(name) - 1]
    and the empty string otherwise. *)
Definition suffix (p : string) : string :=
  let name := basename p in
  match rfind "."%char name with
  | Some i =>
      if (Nat.ltb 0 i && Nat.ltb i (String.length name - 1))%bool
      then drop i name else EmptyString
  | None => EmptyString
  end.

(** Python truthiness of a string. *)
Definition nonempty (s : string) : bool :=
  match s with EmptyString => false | _ => true end.

(** [x in l] on a list of strings. *)
Definition mem (x : string) (l : list string) : bool :=
  existsb (String.eqb x) l.

End Str.

(** ** The remote store *)

(** A file resource of the remote service. *)
Record RemoteFile := {
  rf_id : string;
  rf_name : string;
  rf_parents : list string;
  rf_mimeType : string
}.

(** The [q=] parameter of [files().list].  The script only builds
    conjunctions of [name='..'], [parents='..'] and [mimeType='..']; the
    query is kept as these conjuncts (quoting inside the f-string is the
    remote service's business). *)
Record Query := {
  q_name : option string;
  q_parents : string;
  q_mimeType : option string
}.

(** The [body=] dictionary of [files().create]. *)
Record Body := {
  b_name : string;
  b_mimeType : option string;
  b_parents : list string
}.

(** [MediaFileUpload(file_path, mimetype=.., resumable=..)] *)
Record Media := {
  m_filename : string;
  m_mimetype : string;
  m_resumable : bool
}.

Inductive Call :=
| FilesList (q : Query)
| FilesCreate (body : Body) (media_body : option Media).

Definition folder_mime : string := "application/vnd.google-apps.folder".
Definition octet_stream : string := "application/octet-stream".

(** [self.service]: the remote files in listing order, the counter the
    remote uses to name new resources and the script of faults: the head
    flag says whether the next call raises. *)
Record Service := {
  store : list RemoteFile;
  next_id : nat;
  faults : list bool
}.

Definition matches (q : Query) (f : RemoteFile) : bool :=
  (match q_name q with Some n => String.eqb (rf_name f) n | None => true end)
  && Str.mem (q_parents q) (rf_parents f)
  && (match q_mimeType q with Some m => String.eqb (rf_mimeType f) m | None => true end).

Definition fresh_id (n : nat) : string := "id" ++ Str.of_nat n.

(** ** Python values the script tests for truth *)

(** [if x:] on a value that is [None] or a string: the value when it is
    true, [None] when it is [None] or the empty string. *)
Definition truthy (o : option string) : option string :=
  match o with
  | Some s => if Str.nonempty s then Some s else None
  | None => None
  end.

(** ** Exceptions, log records and the trace of a run *)

Inductive Exc :=
| FileNotFoundError (msg : string)
| HttpError
| ZeroDivisionError
| ValueError.

(** [str(e)] *)
Definition exc_str (e : Exc) : string :=
  match e with
  | FileNotFoundError msg => msg
  | HttpError => "HttpError"
  | ZeroDivisionError => "integer modulo by zero"
  | ValueError => "sleep length must be non-negative"
  end.

Inductive Level := INFO | ERROR.

(** One constructor per [logging] call of the script, carrying the values
    its f-string interpolates. *)
Inductive Msg :=
| MFound (n : Z)
| MFolderExists (folder_name : string)
| MFolderCreated (folder_name id : string)
| MErrCreatingFolder (e : string)
| MFoundFolder (folder_name id : string)
| MFolderNotFound (folder_name : string)
| MErrFindingFolder (e : string)
| MErrListingFolders (e : string)
| MAlreadyExists (file_name : string)
| MUploaded (file_name id : string)
| MErrUploading (file_path e : string)
| MNoFiles
| MUsingFolder (id : string)
| MFailedDestination
| MStarting (total_files : Z)
| MBreak (batch_size break_duration : Z)
| MResuming
| MRule
| MSummaryTitle
| MTotal (total_files : Z)
| MSuccessful (successful_uploads : Z)
| MFailed (failed_uploads : Z)
| MTime
| MErrOccurred (e : string)
| MBotFailed (e : string).

Inductive Event :=
| Api (c : Call)
| Log (l : Level) (m : Msg)
| Print (line : string)
| Sleep (seconds : Z)
| WriteToken.

(** ** The monad of the methods *)

Module Run.

Definition M (S A : Type) : Type := S -> (Exc + A) * S * list Event.

Definition ret {S A} (a : A) : M S A := fun s => (inr a, s, []).

Definition bind {S A B} (m : M S A) (k : A -> M S B) : M S B :=
  fun s =>
    match m s with
    | (inl e, s1, t1) => (inl e, s1, t1)
    | (inr a, s1, t1) =>
        match k a s1 with
        | (r, s2, t2) => (r, s2, (t1 ++ t2)%list)
        end
    end.

Definition raise {S A} (e : Exc) : M S A := fun s => (inl e, s, []).

(** [try: m  except Exception as e: h e] *)
Definition try_except {S A} (m : M S A) (h : Exc -> M S A) : M S A :=
  fun s =>
    match m s with
    | (inl e, s1, t1) =>
        match h e s1 with
        | (r, s2, t2) => (r, s2, (t1 ++ t2)%list)
        end
    | (inr a, s1, t1) => (inr a, s1, t1)
    end.

Definition get {S} : M S S := fun s => (inr s, s, []).
Definition put {S} (s : S) : M S unit := fun _ => (inr tt, s, []).
Definition emit {S} (e : Event) : M S unit := fun s => (inr tt, s, [e]).

Definition result {S A} (x : (Exc + A) * S * list Event) : Exc + A := fst (fst x).
Definition final {S A} (x : (Exc + A) * S * list Event) : S := snd (fst x).
Definition trace {S A} (x : (Exc + A) * S * list Event) : list Event := snd x.

End Run.

Import Run.

Declare Scope run_scope.
Delimit Scope run_scope with run.
Notation "x <- m ;; k" := (bind m (fun x => k))
  (at level 61, m at next level, right associativity) : run_scope.
Notation "m ;; k" := (bind m (fun _ => k))
  (at level 61, right associativity) : run_scope.
Open Scope run_scope.

(** ** The object *)

(** [GoogleDriveUploadBot]: the fields the methods read or write. *)
Record Bot := {
  service : Service;
  uploaded_count : Z;
  batch_size : Z;
  break_duration : Z
}.

Definition set_service (sv : Service) (b : Bot) : Bot :=
  {| service := sv; uploaded_count := uploaded_count b;
     batch_size := batch_size b; break_duration := break_duration b |}.

Definition set_uploaded_count (n : Z) (b : Bot) : Bot :=
  {| service := service b; uploaded_count := n;
     batch_size := batch_size b; break_duration := break_duration b |}.

(** *** Calls on [self.service] *)

(** Every call is recorded, consumes one fault flag and raises when the
    flag is set. *)
Definition request (c : Call) : M Bot unit :=
  emit (Api c) ;;
  b <- get ;;
  let sv := service b in
  match faults sv with
  | true :: fs =>
      put (set_service {| store := store sv; next_id := next_id sv; faults := fs |} b) ;;
      raise HttpError
  | false :: fs =>
      put (set_service {| store := store sv; next_id := next_id sv; faults := fs |} b)
  | [] => ret tt
  end.

(** [self.service.files().list(q=query, fields="files(id, name)").execute()]
    followed by [results.get('files', [])]. *)
Definition files_list (q : Query) : M Bot (list RemoteFile) :=
  request (FilesList q) ;;
  b <- get ;;
  ret (filter (matches q) (store (service b))).

(** [self.service.files().create(body=.., media_body=.., fields='id').execute()]:
    the new resource is listed after the existing ones. *)
Definition files_create (body : Body) (media_body : option Media) : M Bot RemoteFile :=
  request (FilesCreate body media_body) ;;
  b <- get ;;
  let sv := service b in
  let f := {| rf_id := fresh_id (next_id sv);
              rf_name := b_name body;
              rf_parents := b_parents body;
              rf_mimeType :=
                match b_mimeType body, media_body with
                | Some m, _ => m
                | None, Some md => m_mimetype md
                | None, None => octet_stream
                end |} in
  put (set_service {| store := (store sv ++ [f])%list; next_id := S (next_id sv);
                      faults := faults sv |} b) ;;
  ret f.

(** ** The host *)

(** What [Credentials.from_authorized_user_file] loads. *)
Record Creds := {
  valid : bool;
  expired : bool;
  refresh_token : bool
}.

(** The machine the script runs on: [os.path.exists], the entries
    [Path(p).rglob('*')] yields (each with the answer of [is_file()]), the
    table behind [mimetypes.guess_type], the stored token and the outcome of
    the two OAuth2 exchanges ([None]: the exchange succeeds). *)
Record Host := {
  path_exists : string -> bool;
  rglob : string -> list (string * bool);
  guess_type : string -> option string * option string;
  authorized_user_file : string -> Creds;
  oauth_refresh : option Exc;
  oauth_flow : option Exc
}.

Definition py_mod {S} (a b : Z) : M S Z :=
  if b =? 0 then raise ZeroDivisionError else ret (a mod b).

(** [time.sleep] *)
Definition sleep {S} (d : Z) : M S unit :=
  if d <? 0 then raise ValueError else emit (Sleep d).

Definition external {S} (o : option Exc) : M S unit :=
  match o with Some e => raise e | None => ret tt end.

Section Bot.

Variable host : Host.

(** *** [_authenticate] *)
Definition _authenticate {S} (credentials_file token_file : string) : M S unit :=
  let creds :=
    if path_exists host token_file
    then Some (authorized_user_file host token_file) else None in
  if match creds with Some c => negb (valid c) | None => true end then
    (match creds with
     | Some c =>
         if (expired c && refresh_token c)%bool then external (oauth_refresh host)
         else
           if negb (path_exists host credentials_file)
           then raise (FileNotFoundError
                         ("Credentials file '" ++ credentials_file ++ "' not found!"))
           else external (oauth_flow host)
     | None =>
         if negb (path_exists host credentials_file)
         then raise (FileNotFoundError
                       ("Credentials file '" ++ credentials_file ++ "' not found!"))
         else external (oauth_flow host)
     end) ;;
    emit WriteToken
  else ret tt.

(** *** [get_files_to_upload] *)

(** The body of the [for file_path in path.rglob('*')] loop. *)
Definition keep (file_extensions : option (list string)) (entry : string * bool) : bool :=
  let (file_path, is_file) := entry in
  if is_file then
    match file_extensions with
    | None => true
    | Some exts => Str.mem (Str.lower (Str.suffix file_path)) exts
    end
  else false.

Fixpoint scan (file_extensions : option (list string)) (entries : list (string * bool))
  : list string :=
  match entries with
  | [] => []
  | entry :: rest =>
      if keep file_extensions entry
      then fst entry :: scan file_extensions rest
      else scan file_extensions rest
  end.

Definition get_files_to_upload {S} (local_folder_path : string)
    (file_extensions : option (list string)) : M S (list string) :=
  if negb (path_exists host local_folder_path)
  then raise (FileNotFoundError ("Local folder '" ++ local_folder_path ++ "' not found!"))
  else
    let files_to_upload := scan file_extensions (rglob host local_folder_path) in
    emit (Log INFO (MFound (Z.of_nat (List.length files_to_upload)))) ;;
    ret files_to_upload.

(** *** [create_drive_folder] *)
Definition folder_query (folder_name parent_folder_id : string) : Query :=
  {| q_name := Some folder_name; q_parents := parent_folder_id;
     q_mimeType := Some folder_mime |}.

Definition create_drive_folder (folder_name parent_folder_id : string)
  : M Bot (option string) :=
  try_except
    (folders <- files_list (folder_query folder_name parent_folder_id) ;;
     match folders with
     | f :: _ =>
         emit (Log INFO (MFolderExists folder_name)) ;;
         ret (Some (rf_id f))
     | [] =>
         let folder_metadata :=
           {| b_name := folder_name; b_mimeType := Some folder_mime;
              b_parents := [parent_folder_id] |} in
         folder <- files_create folder_metadata None ;;
         emit (Log INFO (MFolderCreated folder_name (rf_id folder))) ;;
         ret (Some (rf_id folder))
     end)
    (fun e => emit (Log ERROR (MErrCreatingFolder (exc_str e))) ;; ret None).

(** *** [get_folder_id_by_name] *)
Definition get_folder_id_by_name (folder_name parent_folder_id : string)
  : M Bot (option string) :=
  try_except
    (folders <- files_list (folder_query folder_name parent_folder_id) ;;
     match folders with
     | f :: _ =>
         emit (Log INFO (MFoundFolder folder_name (rf_id f))) ;;
         ret (Some (rf_id f))
     | [] =>
         emit (Log INFO (MFolderNotFound folder_name)) ;;
         ret None
     end)
    (fun e => emit (Log ERROR (MErrFindingFolder (exc_str e))) ;; ret None).

(** *** [list_folders] *)
Definition tab : string := String (ascii_of_nat 9) EmptyString.
Definition newline : string := String (ascii_of_nat 10) EmptyString.

Fixpoint print_folders (folders : list RemoteFile) : M Bot unit :=
  match folders with
  | [] => ret tt
  | folder :: rest =>
      emit (Print ("Name: " ++ rf_name folder ++ tab ++ "ID: " ++ rf_id folder)) ;;
      print_folders rest
  end.

Definition list_folders (parent_folder_id : string) : M Bot (option (list RemoteFile)) :=
  try_except
    (folders <- files_list {| q_name := None; q_parents := parent_folder_id;
                              q_mimeType := Some folder_mime |} ;;
     match folders with
     | [] => emit (Print "No folders found.") ;; ret None
     | _ =>
         emit (Print (newline ++ "Available folders:")) ;;
         emit (Print (Str.repeat "-" 50)) ;;
         print_folders folders ;;
         emit (Print (Str.repeat "-" 50)) ;;
         ret (Some folders)
     end)
    (fun e => emit (Log ERROR (MErrListingFolders (exc_str e))) ;; ret None).

(** *** [upload_file] *)
Definition file_query (file_name drive_folder_id : string) : Query :=
  {| q_name := Some file_name; q_parents := drive_folder_id; q_mimeType := None |}.

Definition mime_of (file_path : string) : string :=
  match fst (guess_type host file_path) with
  | Some mime_type => mime_type
  | None => octet_stream
  end.

Definition upload_file (file_path drive_folder_id : string) : M Bot bool :=
  try_except
    (let file_name := Str.basename file_path in
     existing_files <- files_list (file_query file_name drive_folder_id) ;;
     match existing_files with
     | _ :: _ =>
         emit (Log INFO (MAlreadyExists file_name)) ;;
         ret true
     | [] =>
         let mime_type := mime_of file_path in
         let file_metadata :=
           {| b_name := file_name; b_mimeType := None;
              b_parents := [drive_folder_id] |} in
         let media :=
           {| m_filename := file_path; m_mimetype := mime_type;
              m_resumable := true |} in
         file_obj <- files_create file_metadata (Some media) ;;
         emit (Log INFO (MUploaded file_name (rf_id file_obj))) ;;
         ret true
     end)
    (fun e => emit (Log ERROR (MErrUploading file_path (exc_str e))) ;; ret false).

(** *** [upload_with_breaks] *)

(** The [for i, file_path in enumerate(files_to_upload)] loop, from index
    [i] on, with the two local counters. *)
Fixpoint upload_loop (target_folder_id : string) (total_files : Z) (i : Z)
    (files : list string) (successful_uploads failed_uploads : Z) : M Bot (Z * Z) :=
  match files with
  | [] => ret (successful_uploads, failed_uploads)
  | file_path :: rest =>
      ok <- upload_file file_path target_folder_id ;;
      counters <-
        (if ok : bool then
           b <- get ;;
           put (set_uploaded_count (uploaded_count b + 1) b) ;;
           ret (successful_uploads + 1, failed_uploads)
         else ret (successful_uploads, failed_uploads + 1)) ;;
      b <- get ;;
      r <- py_mod (uploaded_count b) (batch_size b) ;;
      (if ((r =? 0) && (i <? total_files - 1))%bool then
         emit (Log INFO (MBreak (batch_size b) (break_duration b))) ;;
         sleep (break_duration b) ;;
         emit (Log INFO MResuming)
       else ret tt) ;;
      upload_loop target_folder_id total_files (i + 1) rest (fst counters) (snd counters)
  end.

Definition summary (total_files successful_uploads failed_uploads : Z) : M Bot unit :=
  emit (Log INFO MRule) ;;
  emit (Log INFO MSummaryTitle) ;;
  emit (Log INFO MRule) ;;
  emit (Log INFO (MTotal total_files)) ;;
  emit (Log INFO (MSuccessful successful_uploads)) ;;
  emit (Log INFO (MFailed failed_uploads)) ;;
  emit (Log INFO MTime).

(** Lines 197-206: [Some] target folder, or [None] when the method returns. *)
Definition destination (drive_folder_name drive_folder_id : option string)
  : M Bot (option string) :=
  match truthy drive_folder_id with
  | Some id =>
      emit (Log INFO (MUsingFolder id)) ;;
      ret (Some id)
  | None =>
      match truthy drive_folder_name with
      | Some name =>
          target_folder_id <- create_drive_folder name "root" ;;
          match truthy target_folder_id with
          | Some t => ret (Some t)
          | None => emit (Log ERROR MFailedDestination) ;; ret None
          end
      | None => ret (Some "root")
      end
  end.

(** Lines 208-242: the loop and the summary. *)
Definition upload_all (files_to_upload : list string) (target_folder_id : string)
  : M Bot unit :=
  let total_files := Z.of_nat (List.length files_to_upload) in
  emit (Log INFO (MStarting total_files)) ;;
  counters <- upload_loop target_folder_id total_files 0 files_to_upload 0 0 ;;
  summary total_files (fst counters) (snd counters).

Definition upload_with_breaks (local_folder_path : string)
    (drive_folder_name drive_folder_id : option string)
    (file_extensions : option (list string)) : M Bot unit :=
  try_except
    (files_to_upload <- get_files_to_upload local_folder_path file_extensions ;;
     match files_to_upload with
     | [] => emit (Log INFO MNoFiles)
     | _ :: _ =>
         target <- destination drive_folder_name drive_folder_id ;;
         match target with
         | Some target_folder_id => upload_all files_to_upload target_folder_id
         | None => ret tt
         end
     end)
    (fun e => emit (Log ERROR (MErrOccurred (exc_str e)))).

(** *** [__init__] and [main] *)

(** The fields [__init__] sets once [_authenticate] has returned. *)
Definition new_bot (sv : Service) : Bot :=
  {| service := sv; uploaded_count := 0; batch_size := 10; break_duration := 180 |}.

(** A method call on [bot] from [main], where only the remote service
    outlives the call. *)
Definition on_bot {A} (bot : Bot) (m : M Bot A) : M Service A :=
  fun sv =>
    match m (set_service sv bot) with
    | (r, bot', t) => (r, service bot', t)
    end.

Definition LOCAL_FOLDER : string := "./files_to_upload".
Definition DRIVE_FOLDER_NAME : string := "uploads".
Definition DRIVE_FOLDER_ID : option string := None.
Definition FILE_EXTENSIONS : option (list string) := None.

Definition list_mode (argv : list string) : bool :=
  match argv with
  | _ :: a :: _ => String.eqb a "--list-folders"
  | _ => false
  end.

Definition banner : M Service unit :=
  emit (Print (Str.repeat "=" 60)) ;;
  emit (Print "GOOGLE DRIVE AUTO UPLOAD BOT") ;;
  emit (Print (Str.repeat "=" 60)) ;;
  emit (Print ("Local folder: " ++ LOCAL_FOLDER)) ;;
  match truthy DRIVE_FOLDER_ID with
  | Some id => emit (Print ("Drive folder ID: " ++ id))
  | None => emit (Print ("Drive folder name: " ++ DRIVE_FOLDER_NAME))
  end ;;
  emit (Print ("File filter: " ++
               match FILE_EXTENSIONS with
               | None => "All files"
               | Some exts => Str.join ", " exts
               end)) ;;
  emit (Print (Str.repeat "=" 60)) ;;
  emit (Print (newline ++
               "TIP: Run 'python main.py --list-folders' to see available folders and their IDs")) ;;
  emit (Print (Str.repeat "=" 60)) ;;
  emit (Print (newline ++ "Initializing bot and authenticating with Google Drive...")) ;;
  emit (Print "Starting upload process...").

Definition main (argv : list string) : M Service unit :=
  try_except
    (_authenticate "credentials.json" "token.json" ;;
     sv <- get ;;
     let bot := new_bot sv in
     if list_mode argv then
       emit (Print "Listing available folders in Google Drive...") ;;
       on_bot bot (list_folders "root") ;;
       ret tt
     else
       banner ;;
       on_bot bot
         (upload_with_breaks LOCAL_FOLDER
            (match truthy DRIVE_FOLDER_ID with
             | Some _ => None
             | None => Some DRIVE_FOLDER_NAME
             end)
            DRIVE_FOLDER_ID FILE_EXTENSIONS))
    (fun e =>
       emit (Log ERROR (MBotFailed (exc_str e))) ;;
       emit (Print ("Error: " ++ exc_str e))).

End Bot.

(** ** What a trace shows *)

(** The per-file lookups of [upload_file]: name asked for and folder. *)
Definition attempt_of (e : Event) : list (string * string) :=
  match e with
  | Api (FilesList {| q_name := Some n; q_parents := p; q_mimeType := None |}) => [(n, p)]
  | _ => []
  end.

Definition attempts (t : list Event) : list (string * string) := flat_map attempt_of t.

(** The transfers: [files().create] calls that carry a media body. *)
Definition upload_of (e : Event) : list (Body * Media) :=
  match e with
  | Api (FilesCreate body (Some media)) => [(body, media)]
  | _ => []
  end.

Definition uploads (t : list Event) : list (Body * Media) := flat_map upload_of t.

(** The create-folder calls: [files().create] without a media body. *)
Definition folder_create_of (e : Event) : list Body :=
  match e with
  | Api (FilesCreate body None) => [body]
  | _ => []
  end.

Definition folder_creates (t : list Event) : list Body := flat_map folder_create_of t.

Definition sleep_of (e : Event) : list Z :=
  match e with Sleep d => [d] | _ => [] end.

Definition sleeps (t : list Event) : list Z := flat_map sleep_of t.

(** The "Error uploading" records, one per failed attempt. *)
Definition failure_of (e : Event) : list string :=
  match e with Log ERROR (MErrUploading file_path _) => [file_path] | _ => [] end.

Definition failed_paths (t : list Event) : list string := flat_map failure_of t.

Definition failures (t : list Event) : Z := Z.of_nat (List.length (failed_paths t)).

(** The "Failed uploads: n" records of the summary. *)
Definition reported_of (e : Event) : list Z :=
  match e with Log INFO (MFailed n) => [n] | _ => [] end.

Definition reported_failed (t : list Event) : list Z := flat_map reported_of t.

Definition is_error (e : Event) : bool :=
  match e with Log ERROR _ => true | _ => false end.

(** Lines the user sees on the terminal: [print] writes to it, and so does
    [logging], configured at the top of the script with a [StreamHandler]
    next to the file handler. *)
Definition on_console (e : Event) : bool :=
  match e with Print _ | Log _ _ => true | _ => false end.

(** [name] is listed directly under [folder]. *)
Definition present (name folder : string) (sv : Service) : bool :=
  existsb (matches {| q_name := Some name; q_parents := folder; q_mimeType := None |})
          (store sv).

(** ** The remote calls, step by step *)

(** Whether the next call on the service raises, and the bot once the call
    has consumed its fault flag. *)
Definition faulty (b : Bot) : bool :=
  match faults (service b) with true :: _ => true | _ => false end.

Definition tick (b : Bot) : Bot :=
  match faults (service b) with
  | [] => b
  | _ :: fs =>
      set_service {| store := store (service b); next_id := next_id (service b);
                     faults := fs |} b
  end.

(** The bot once the remote has stored [f]. *)
Definition stored (f : RemoteFile) (b : Bot) : Bot :=
  set_service {| store := (store (service b) ++ [f])%list;
                 next_id := S (next_id (service b));
                 faults := faults (service b) |} b.

Definition created (body : Body) (media_body : option Media) (n : nat) : RemoteFile :=
  {| rf_id := fresh_id n;
     rf_name := b_name body;
     rf_parents := b_parents body;
     rf_mimeType :=
       match b_mimeType body, media_body with
       | Some m, _ => m
       | None, Some md => m_mimetype md
       | None, None => octet_stream
       end |}.

Definition upload_body (file_path folder : string) : Body :=
  {| b_name := Str.basename file_path; b_mimeType := None; b_parents := [folder] |}.

Definition upload_media (host : Host) (file_path : string) : Media :=
  {| m_filename := file_path; m_mimetype := mime_of host file_path; m_resumable := true |}.

Definition folder_body (folder_name parent : string) : Body :=
  {| b_name := folder_name; b_mimeType := Some folder_mime; b_parents := [parent] |}.

(** ** Vocabulary of the statements, sample hosts and services *)

(** The bot after lines 217-221, given what [upload_file] returned. *)
Definition counted (ok : bool) (b : Bot) : Bot :=
  if ok then set_uploaded_count (uploaded_count b + 1) b else b.

(** The test of line 224. *)
Definition pause_due (b : Bot) (i total_files : Z) : bool :=
  ((uploaded_count b mod batch_size b =? 0) && (i <? total_files - 1))%bool.

Definition pause_events (b : Bot) : list Event :=
  [Log INFO (MBreak (batch_size b) (break_duration b)); Sleep (break_duration b);
   Log INFO MResuming].

Definition summary_events (total_files successful_uploads failed_uploads : Z) : list Event :=
  [Log INFO MRule; Log INFO MSummaryTitle; Log INFO MRule;
   Log INFO (MTotal total_files); Log INFO (MSuccessful successful_uploads);
   Log INFO (MFailed failed_uploads); Log INFO MTime].

Definition no_token : Creds := {| valid := false; expired := false; refresh_token := false |}.

(** A directory [d] with a sub-directory and three files, two of which
    share a base name. *)
Definition sample_host : Host :=
  {| path_exists := fun p => String.eqb p "d";
     rglob := fun p =>
       if String.eqb p "d"
       then [("d/a.txt", true); ("d/sub", false); ("d/sub/a.txt", true); ("d/b.JPG", true)]
       else [];
     guess_type := fun p =>
       if String.eqb (Str.lower (Str.suffix p)) ".txt" then (Some "text/plain", None)
       else (None, None);
     authorized_user_file := fun _ => no_token;
     oauth_refresh := None;
     oauth_flow := None |}.

Definition empty_service (fs : list bool) : Service :=
  {| store := []; next_id := 0; faults := fs |}.

Definition txt_in_root : RemoteFile :=
  {| rf_id := "x1"; rf_name := "a.txt"; rf_parents := ["root"]; rf_mimeType := "text/plain" |}.

Definition one_file_service (fs : list bool) : Service :=
  {| store := [txt_in_root]; next_id := 0; faults := fs |}.

Definition api_of (e : Event) : list Call :=
  match e with Api c => [c] | _ => [] end.

Definition api_calls (t : list Event) : list Call := flat_map api_of t.

(** An event of the loop over [files] towards [target]: lookups are made in
    [target]; a transfer names the resource by the base name of one of the
    files and puts it directly under [target]; no folder is created. *)
Definition flat_under (target : string) (files : list string) (e : Event) : Prop :=
  match e with
  | Api (FilesList q) => q_parents q = target
  | Api (FilesCreate body (Some media)) =>
      b_parents body = [target] /\
      b_name body = Str.basename (m_filename media) /\
      In (m_filename media) files
  | Api (FilesCreate body None) => False
  | _ => True
  end.

Definition flat_upload (target : string) (files : list string) (bm : Body * Media) : Prop :=
  b_parents (fst bm) = [target] /\
  b_name (fst bm) = Str.basename (m_filename (snd bm)) /\
  In (m_filename (snd bm)) files.


(** The stored token lets [_authenticate] go on without the client-secret
    file: it is there and is valid, or expired with a refresh token. *)
Definition usable_token (host : Host) (token_file : string) : bool :=
  (path_exists host token_file &&
   (valid (authorized_user_file host token_file) ||
    (expired (authorized_user_file host token_file) &&
     refresh_token (authorized_user_file host token_file))))%bool.

(** A host with neither token nor client-secret file. *)
Definition bare_host : Host :=
  {| path_exists := fun _ => false;
     rglob := fun _ => [];
     guess_type := fun _ => (None, None);
     authorized_user_file := fun _ => no_token;
     oauth_refresh := None;
     oauth_flow := None |}.

Definition quiet (t : list Event) : bool := forallb (fun e => negb (is_error e)) t.

(** A host whose directory [d] holds the single file [report.TXT]. *)
Definition report_host : Host :=
  {| path_exists := fun p => String.eqb p "d";
     rglob := fun _ => [("d/report.TXT", true)];
     guess_type := fun _ => (None, None);
     authorized_user_file := fun _ => no_token;
     oauth_refresh := None;
     oauth_flow := None |}.

(** ** Further observers and sample data *)

Definition total_of (e : Event) : list Z :=
  match e with Log INFO (MTotal n) => [n] | _ => [] end.

(** The "Total files processed: n" records. *)
Definition reported_total (t : list Event) : list Z := flat_map total_of t.

Definition successful_of (e : Event) : list Z :=
  match e with Log INFO (MSuccessful n) => [n] | _ => [] end.

(** The "Successful uploads: n" records. *)
Definition reported_successful (t : list Event) : list Z := flat_map successful_of t.

Definition print_of (e : Event) : list string :=
  match e with Print line => [line] | _ => [] end.

(** The lines written with [print]. *)
Definition prints (t : list Event) : list string := flat_map print_of t.

(** The names listed directly under [folder]. *)
Definition names_under (folder : string) (l : list RemoteFile) : list string :=
  map rf_name (filter (fun f => Str.mem folder (rf_parents f)) l).

(** A bot whose batch size was set to zero after construction. *)
Definition zero_batch_bot (sv : Service) : Bot :=
  {| service := sv; uploaded_count := 0; batch_size := 0; break_duration := 180 |}.

(** A host with a valid stored token and no client-secret file. *)
Definition token_host : Host :=
  {| path_exists := fun p => String.eqb p "token.json";
     rglob := fun _ => [];
     guess_type := fun _ => (None, None);
     authorized_user_file := fun _ =>
       {| valid := true; expired := false; refresh_token := true |};
     oauth_refresh := None;
     oauth_flow := None |}.

Definition uploads_folder : RemoteFile :=
  {| rf_id := "f7"; rf_name := "uploads"; rf_parents := ["root"];
     rf_mimeType := folder_mime |}.


(** * Proofs *)

Lemma tick_store b : store (service (tick b)) = store (service b).
Proof. unfold tick. destruct (faults (service b)); reflexivity. Qed.

Lemma tick_next_id b : next_id (service (tick b)) = next_id (service b).
Proof. unfold tick. destruct (faults (service b)); reflexivity. Qed.

Lemma tick_fields b :
  uploaded_count (tick b) = uploaded_count b /\
  batch_size (tick b) = batch_size b /\
  break_duration (tick b) = break_duration b.
Proof. unfold tick. destruct (faults (service b)); auto. Qed.

Lemma request_eq c b :
  request c b = ((if faulty b then inl HttpError else inr tt), tick b, [Api c]).
Proof.
  unfold request, faulty, tick, bind, emit, get, put, raise, ret. simpl.
  destruct (faults (service b)) as [|[|] fs]; reflexivity.
Qed.

Lemma files_list_eq q b :
  files_list q b =
  ((if faulty b then inl HttpError
    else inr (filter (matches q) (store (service b)))), tick b, [Api (FilesList q)]).
Proof.
  unfold files_list, bind. rewrite request_eq.
  destruct (faulty b); [reflexivity|].
  unfold get, ret. simpl. rewrite tick_store. reflexivity.
Qed.

Lemma files_create_eq body media b :
  files_create body media b =
  if faulty b then (inl HttpError, tick b, [Api (FilesCreate body media)])
  else (inr (created body media (next_id (service b))),
        stored (created body media (next_id (service b))) (tick b),
        [Api (FilesCreate body media)]).
Proof.
  unfold files_create, bind. rewrite request_eq.
  destruct (faulty b); [reflexivity|].
  unfold get, put, ret, stored, created. simpl. rewrite tick_next_id. reflexivity.
Qed.

(** [upload_file], case by case: the lookup raises; the name is found; the
    transfer raises; the transfer succeeds. *)
Lemma upload_file_eq host file_path folder b :
  let name := Str.basename file_path in
  let lookup := Api (FilesList (file_query name folder)) in
  let transfer :=
    Api (FilesCreate (upload_body file_path folder) (Some (upload_media host file_path))) in
  let f := created (upload_body file_path folder) (Some (upload_media host file_path))
                   (next_id (service b)) in
  upload_file host file_path folder b =
  if faulty b then
    (inr false, tick b, [lookup; Log ERROR (MErrUploading file_path "HttpError")])
  else if present name folder (service b) then
    (inr true, tick b, [lookup; Log INFO (MAlreadyExists name)])
  else if faulty (tick b) then
    (inr false, tick (tick b),
     [lookup; transfer; Log ERROR (MErrUploading file_path "HttpError")])
  else
    (inr true, stored f (tick (tick b)),
     [lookup; transfer; Log INFO (MUploaded name (rf_id f))]).
Proof.
  intros name lookup transfer f.
  unfold upload_file, try_except, bind. rewrite files_list_eq.
  destruct (faulty b) eqn:F1; [reflexivity|].
  fold name. unfold present, file_query.
  match goal with |- context [filter ?p ?l] =>
    assert (E : existsb p l = match filter p l with [] => false | _ => true end)
  end.
  { generalize (store (service b)). intros l. induction l as [|x l IH]; simpl; [reflexivity|].
    destruct (matches _ x); simpl; [reflexivity | exact IH]. }
  rewrite E. clear E.
  match goal with |- context [filter ?p ?l] => destruct (filter p l) end.
  - rewrite files_create_eq.
    destruct (faulty (tick b)) eqn:F2; [reflexivity|].
    unfold emit, ret. simpl. subst f. rewrite tick_next_id. reflexivity.
  - reflexivity.
Qed.

(** ** The loop, one file at a time *)

Lemma upload_loop_cons host target total i file_path rest s f b :
  upload_loop host target total i (file_path :: rest) s f b =
  match upload_file host file_path target b with
  | (inl e, b1, t1) => (inl e, b1, t1)
  | (inr ok, b1, t1) =>
      let b2 := counted ok b1 in
      let s' := if ok then s + 1 else s in
      let f' := if ok then f else f + 1 in
      if batch_size b2 =? 0 then (inl ZeroDivisionError, b2, t1)
      else if pause_due b2 i total then
        if break_duration b2 <? 0
        then (inl ValueError, b2,
              (t1 ++ [Log INFO (MBreak (batch_size b2) (break_duration b2))])%list)
        else
          match upload_loop host target total (i + 1) rest s' f' b2 with
          | (r, b3, t3) => (r, b3, (t1 ++ pause_events b2 ++ t3)%list)
          end
      else
        match upload_loop host target total (i + 1) rest s' f' b2 with
        | (r, b3, t3) => (r, b3, (t1 ++ t3)%list)
        end
  end.
Proof.
  cbn [upload_loop]. unfold bind at 1.
  destruct (upload_file host file_path target b) as [[[e|ok] b1] t1]; [reflexivity|].
  cbv zeta. unfold pause_due, pause_events.
  destruct ok; cbv [bind get put ret raise emit py_mod sleep counted fst snd];
    cbn [batch_size uploaded_count break_duration set_uploaded_count];
    (destruct (batch_size b1 =? 0); [cbn; rewrite ?app_nil_r; reflexivity|]);
    match goal with
    | |- context [((?a =? 0) && (i <? total - 1))%bool] =>
        destruct ((a =? 0) && (i <? total - 1))%bool
    end;
    try (destruct (break_duration b1 <? 0));
    try match goal with
      | |- context [upload_loop ?h ?t ?n ?k ?r ?x ?y ?z] =>
          destruct (upload_loop h t n k r x y z) as [[r3 b3] t3]
      end;
    cbn; rewrite ?app_nil_r; reflexivity.
Qed.

(** ** Facts about one [upload_file] call *)

Ltac upload_cases b :=
  rewrite upload_file_eq; cbv zeta;
  let F1 := fresh "F1" in let P := fresh "P" in let F2 := fresh "F2" in
  destruct (faulty b) eqn:F1;
  [| destruct (present _ _ (service b)) eqn:P;
     [| destruct (faulty (tick b)) eqn:F2]].

Lemma stored_store f b :
  store (service (stored f b)) = (store (service b) ++ [f])%list.
Proof. reflexivity. Qed.

Lemma present_grows name folder sv sv' ext :
  store sv' = (store sv ++ ext)%list ->
  present name folder sv = true -> present name folder sv' = true.
Proof.
  unfold present. intros -> H. rewrite existsb_app, H. reflexivity.
Qed.

Lemma present_uploaded host file_path folder n b :
  present (Str.basename file_path) folder
    (service (stored (created (upload_body file_path folder)
                              (Some (upload_media host file_path)) n) b)) = true.
Proof.
  unfold present. rewrite stored_store, existsb_app. apply orb_true_iff. right.
  unfold matches, created, upload_body, Str.mem. cbn.
  rewrite !String.eqb_refl. reflexivity.
Qed.

(** [upload_file] catches everything: it always returns a boolean. *)
Lemma upload_file_returns host file_path folder b :
  exists ok, result (upload_file host file_path folder b) = inr ok.
Proof. upload_cases b; eexists; reflexivity. Qed.

Lemma upload_file_fields host file_path folder b :
  let b1 := final (upload_file host file_path folder b) in
  uploaded_count b1 = uploaded_count b /\
  batch_size b1 = batch_size b /\
  break_duration b1 = break_duration b.
Proof.
  upload_cases b; cbn;
    repeat match goal with
      | |- context [tick ?x] =>
          let H := fresh in pose proof (tick_fields x) as H; revert H;
          generalize (tick x); intros ? (-> & -> & ->)
      end; auto.
Qed.

Lemma upload_file_trace host file_path folder b :
  let r := upload_file host file_path folder b in
  attempts (trace r) = [(Str.basename file_path, folder)] /\
  sleeps (trace r) = [] /\
  folder_creates (trace r) = [] /\
  reported_failed (trace r) = [].
Proof. upload_cases b; cbn; auto. Qed.

(** The attempt logs an error exactly when it returns [False]. *)
Lemma upload_file_failure host file_path folder b :
  let r := upload_file host file_path folder b in
  (result r = inr true /\ failed_paths (trace r) = [] /\
   forallb (fun e => negb (is_error e)) (trace r) = true) \/
  (result r = inr false /\ failed_paths (trace r) = [file_path] /\
   forallb (fun e => negb (is_error e)) (trace r) = false).
Proof. upload_cases b; cbn; auto. Qed.

(** The store only grows, at its end. *)
Lemma upload_file_store host file_path folder b :
  let r := upload_file host file_path folder b in
  exists ext, store (service (final r)) = (store (service b) ++ ext)%list.
Proof.
  upload_cases b; cbn;
    try (exists []; rewrite ?tick_store, app_nil_r; reflexivity).
  eexists. rewrite !tick_store. reflexivity.
Qed.

Lemma upload_file_present host file_path folder b :
  let r := upload_file host file_path folder b in
  result r = inr true ->
  present (Str.basename file_path) folder (service (final r)) = true.
Proof.
  upload_cases b; cbn; try discriminate; intros _.
  - eapply present_grows; [|exact P]. rewrite tick_store, app_nil_r. reflexivity.
  - apply present_uploaded.
Qed.

(** A name already listed under the folder: the store is left as it is,
    whether or not the lookup raises. *)
Lemma upload_file_idle host file_path folder b :
  present (Str.basename file_path) folder (service b) = true ->
  let r := upload_file host file_path folder b in
  store (service (final r)) = store (service b) /\ uploads (trace r) = [].
Proof.
  intros H. upload_cases b; cbn; rewrite ?tick_store; auto; congruence.
Qed.

(** ** Facts about the loop *)

Lemma attempts_app t1 t2 : attempts (t1 ++ t2) = (attempts t1 ++ attempts t2)%list.
Proof. apply flat_map_app. Qed.

Lemma uploads_app t1 t2 : uploads (t1 ++ t2) = (uploads t1 ++ uploads t2)%list.
Proof. apply flat_map_app. Qed.

Lemma folder_creates_app t1 t2 :
  folder_creates (t1 ++ t2) = (folder_creates t1 ++ folder_creates t2)%list.
Proof. apply flat_map_app. Qed.

Lemma sleeps_app t1 t2 : sleeps (t1 ++ t2) = (sleeps t1 ++ sleeps t2)%list.
Proof. apply flat_map_app. Qed.

Lemma reported_failed_app t1 t2 :
  reported_failed (t1 ++ t2) = (reported_failed t1 ++ reported_failed t2)%list.
Proof. apply flat_map_app. Qed.

Lemma failed_paths_app t1 t2 :
  failed_paths (t1 ++ t2) = (failed_paths t1 ++ failed_paths t2)%list.
Proof. apply flat_map_app. Qed.

Lemma failures_app t1 t2 : failures (t1 ++ t2) = failures t1 + failures t2.
Proof.
  unfold failures. rewrite failed_paths_app, length_app. lia.
Qed.

Lemma counted_fields ok b :
  batch_size (counted ok b) = batch_size b /\
  break_duration (counted ok b) = break_duration b /\
  service (counted ok b) = service b.
Proof. destruct ok; auto. Qed.

(** Facts about the call [upload_file host p target b], with its outcome
    named. *)
Ltac upload_facts host p target b :=
  pose proof (upload_file_returns host p target b) as [? Hret];
  pose proof (upload_file_fields host p target b) as (Hcount & Hbatch & Hbreak);
  pose proof (upload_file_trace host p target b) as (Hatt & Hsl & Hfc & Hrep);
  pose proof (upload_file_failure host p target b) as Hfail;
  pose proof (upload_file_store host p target b) as [? Hstore];
  pose proof (upload_file_present host p target b) as Hpres;
  let r1 := fresh "r" in let b1 := fresh "b" in let t1 := fresh "t" in
  destruct (upload_file host p target b) as [[r1 b1] t1];
  unfold result, final, trace in *; cbn [fst snd] in *; subst r1.

(** With a non-zero batch size and a non-negative break the loop runs to
    its end: every file is looked up, in order, and the second counter
    grows by the number of logged failures. *)
Lemma upload_loop_complete host target total files :
  forall i s f b,
    batch_size b <> 0 -> 0 <= break_duration b ->
    exists s' f' b' t,
      upload_loop host target total i files s f b = (inr (s', f'), b', t) /\
      attempts t = map (fun p => (Str.basename p, target)) files /\
      f' = f + failures t /\
      s' + f' = s + f + Z.of_nat (List.length files) /\
      reported_failed t = [] /\
      folder_creates t = [].
Proof.
  induction files as [|p rest IH]; intros i s f b Hb Hd.
  - exists s, f, b, []. cbn. repeat split; lia.
  - rewrite upload_loop_cons.
    upload_facts host p target b. cbv zeta.
    destruct (counted_fields x b0) as (Eb & Ed & _).
    assert (Hb2 : batch_size (counted x b0) <> 0) by congruence.
    assert (Hd2 : 0 <= break_duration (counted x b0)) by congruence.
    apply Z.eqb_neq in Hb2 as Hb2'. rewrite Hb2'.
    assert (Hd2' : (break_duration (counted x b0) <? 0) = false) by (apply Z.ltb_ge; lia).
    rewrite Hd2'.
    destruct (IH (i + 1) (if x then s + 1 else s) (if x then f else f + 1)
                 (counted x b0) Hb2 Hd2) as (s' & f' & b' & t' & E & A & F & C & R & G).
    rewrite E.
    assert (Hf1 : failures t = if x then 0 else 1).
    { unfold failures. destruct Hfail as [(Ex & -> & _)|(Ex & -> & _)];
        inversion Ex; reflexivity. }
    destruct (pause_due (counted x b0) i total);
      exists s', f', b'; eexists; (split; [reflexivity|]);
      rewrite ?failures_app, ?attempts_app, ?reported_failed_app, ?folder_creates_app;
      rewrite ?Hatt, ?Hrep, ?Hfc, ?A, ?R, ?G, ?Hf1;
      change (failures (pause_events (counted x b0))) with 0;
      (repeat split; try reflexivity; destruct x; cbn [List.length] in *; lia).
Qed.

(** A property of events that holds of log records, of sleeps and of what
    [upload_file] does on each of the files, holds of the whole loop. *)
Lemma upload_loop_Forall host target total (P : Event -> Prop) (all : list string) :
  (forall l m, P (Log l m)) ->
  (forall d, P (Sleep d)) ->
  (forall p b, In p all -> Forall P (trace (upload_file host p target b))) ->
  forall files i s f b,
    incl files all ->
    Forall P (trace (upload_loop host target total i files s f b)).
Proof.
  intros HL HS HU. induction files as [|p rest IH]; intros i s f b Hin.
  - constructor.
  - rewrite upload_loop_cons.
    pose proof (HU p b (Hin p (or_introl eq_refl))) as H1.
    assert (Hrest : incl rest all) by (intros q Hq; apply Hin; right; exact Hq).
    destruct (upload_file host p target b) as [[[e|ok] b1] t1];
      unfold trace in *; cbn [snd] in *; [exact H1|]. cbv zeta.
    destruct (batch_size (counted ok b1) =? 0); [exact H1|].
    destruct (pause_due (counted ok b1) i total).
    + destruct (break_duration (counted ok b1) <? 0).
      * cbn [snd]. apply Forall_app. split; [exact H1|]. repeat constructor. apply HL.
      * specialize (IH (i + 1) (if ok then s + 1 else s) (if ok then f else f + 1)
                       (counted ok b1) Hrest).
        destruct (upload_loop _ _ _ _ _ _ _ _) as [[r b3] t3]. cbn [snd] in *.
        apply Forall_app. split; [exact H1|]. apply Forall_app. split; [|exact IH].
        unfold pause_events. repeat constructor; auto.
    + specialize (IH (i + 1) (if ok then s + 1 else s) (if ok then f else f + 1)
                     (counted ok b1) Hrest).
      destruct (upload_loop _ _ _ _ _ _ _ _) as [[r b3] t3]. cbn [snd] in *.
      apply Forall_app. split; assumption.
Qed.

(** The loop leaves the store untouched when every name is already listed
    under the target, whatever the remote calls do. *)
Lemma upload_loop_idle host target total files :
  forall i s f b,
    (forall p, In p files -> present (Str.basename p) target (service b) = true) ->
    let r := upload_loop host target total i files s f b in
    store (service (final r)) = store (service b) /\ uploads (trace r) = [].
Proof.
  induction files as [|p rest IH]; intros i s f b Hall.
  - split; reflexivity.
  - cbv zeta. rewrite upload_loop_cons.
    pose proof (upload_file_idle host p target b (Hall p (or_introl eq_refl))) as [Hs Hu].
    upload_facts host p target b. cbv zeta.
    destruct (counted_fields x b0) as (_ & _ & Esv).
    assert (Hall' : forall q, In q rest ->
                      present (Str.basename q) target (service (counted x b0)) = true).
    { intros q Hq. rewrite Esv. unfold present. rewrite Hs.
      apply (Hall q). right. exact Hq. }
    specialize (IH (i + 1) (if x then s + 1 else s) (if x then f else f + 1)
                   (counted x b0) Hall').
    cbv zeta in IH. destruct IH as [IHs IHu]. rewrite Esv, Hs in IHs.
    destruct (batch_size (counted x b0) =? 0);
      [cbn [fst snd]; rewrite Esv; auto|].
    destruct (pause_due (counted x b0) i total);
      [destruct (break_duration (counted x b0) <? 0);
       [cbn [fst snd]; rewrite Esv, uploads_app, Hu; auto|]|];
      destruct (upload_loop _ _ _ _ _ _ _ _) as [[r3 b3] t3];
      unfold final, trace in *; cbn [fst snd] in *;
      rewrite ?uploads_app, Hu, IHu; auto.
Qed.

(** The store only grows, at its end. *)
Lemma upload_loop_store host target total files :
  forall i s f b,
    exists ext,
      store (service (final (upload_loop host target total i files s f b))) =
      (store (service b) ++ ext)%list.
Proof.
  induction files as [|p rest IH]; intros i s f b.
  - exists []. cbn. rewrite app_nil_r. reflexivity.
  - rewrite upload_loop_cons.
    upload_facts host p target b. cbv zeta.
    destruct (counted_fields x b0) as (_ & _ & Esv).
    destruct (IH (i + 1) (if x then s + 1 else s) (if x then f else f + 1)
                 (counted x b0)) as [ext2 IH2].
    rewrite Esv, Hstore in IH2.
    destruct (batch_size (counted x b0) =? 0);
      [cbn [fst snd]; rewrite Esv; eauto|].
    destruct (pause_due (counted x b0) i total);
      [destruct (break_duration (counted x b0) <? 0);
       [cbn [fst snd]; rewrite Esv; eauto|]|];
      destruct (upload_loop _ _ _ _ _ _ _ _) as [[r3 b3] t3];
      unfold final in *; cbn [fst snd] in *;
      exists (x0 ++ ext2)%list; rewrite app_assoc; exact IH2.
Qed.

(** A loop that ends without having logged an error leaves every name
    listed under the target. *)
Lemma upload_loop_present host target total files :
  forall i s f b,
    let r := upload_loop host target total i files s f b in
    (exists c, result r = inr c) ->
    forallb (fun e => negb (is_error e)) (trace r) = true ->
    forall p, In p files ->
      present (Str.basename p) target (service (final r)) = true.
Proof.
  induction files as [|p rest IH]; intros i s f b r Hres Hquiet q Hq.
  - destruct Hq.
  - subst r. revert Hres Hquiet. rewrite upload_loop_cons.
    upload_facts host p target b. cbv zeta.
    destruct (counted_fields x b0) as (_ & _ & Esv).
    specialize (IH (i + 1) (if x then s + 1 else s) (if x then f else f + 1)
                   (counted x b0)). cbv zeta in IH.
    pose proof (upload_loop_store host target total rest (i + 1)
                  (if x then s + 1 else s) (if x then f else f + 1)
                  (counted x b0)) as [ext Hgrow].
    destruct (batch_size (counted x b0) =? 0);
      [intros [c Hc]; discriminate|].
    destruct (pause_due (counted x b0) i total);
      [destruct (break_duration (counted x b0) <? 0);
       [intros [c Hc]; discriminate|]|];
      destruct (upload_loop _ _ _ _ _ _ _ _) as [[r3 b3] t3];
      unfold result, final, trace in *; cbn [fst snd] in *;
      intros Hres Hquiet;
      rewrite ?forallb_app in Hquiet;
      repeat (apply andb_true_iff in Hquiet as [? Hquiet]);
      (destruct Hfail as [(Ex & _ & _)|(_ & _ & Hbad)]; [|congruence]);
      (destruct Hq as [<-|Hq];
       [eapply present_grows; [exact Hgrow|]; rewrite Esv; apply Hpres; exact Ex
       |apply IH; auto]).
Qed.

(** ** Destination folder and the whole method *)

(** [create_drive_folder], case by case: the lookup raises; a folder of
    that name is listed; the creation raises; the folder is created. *)
Lemma create_drive_folder_eq folder_name parent b :
  let lookup := Api (FilesList (folder_query folder_name parent)) in
  let create := Api (FilesCreate (folder_body folder_name parent) None) in
  let f := created (folder_body folder_name parent) None (next_id (service b)) in
  create_drive_folder folder_name parent b =
  if faulty b then
    (inr None, tick b, [lookup; Log ERROR (MErrCreatingFolder "HttpError")])
  else
    match filter (matches (folder_query folder_name parent)) (store (service b)) with
    | found :: _ =>
        (inr (Some (rf_id found)), tick b, [lookup; Log INFO (MFolderExists folder_name)])
    | [] =>
        if faulty (tick b) then
          (inr None, tick (tick b),
           [lookup; create; Log ERROR (MErrCreatingFolder "HttpError")])
        else
          (inr (Some (rf_id f)), stored f (tick (tick b)),
           [lookup; create; Log INFO (MFolderCreated folder_name (rf_id f))])
    end.
Proof.
  intros lookup create f.
  unfold create_drive_folder, try_except, bind. rewrite files_list_eq.
  destruct (faulty b) eqn:F1; [reflexivity|].
  destruct (filter _ _) as [|found others]; [|reflexivity].
  fold (folder_body folder_name parent). rewrite files_create_eq.
  destruct (faulty (tick b)) eqn:F2; [reflexivity|].
  unfold emit, ret. cbn. subst f. rewrite tick_next_id. reflexivity.
Qed.

Lemma upload_all_eq host files target b :
  let total := Z.of_nat (List.length files) in
  upload_all host files target b =
  match upload_loop host target total 0 files 0 0 b with
  | (inl e, b1, t1) => (inl e, b1, Log INFO (MStarting total) :: t1)
  | (inr (s, f), b1, t1) =>
      (inr tt, b1, (Log INFO (MStarting total) :: t1 ++ summary_events total s f)%list)
  end.
Proof.
  cbv zeta. unfold upload_all, bind, emit at 1.
  destruct (upload_loop _ _ _ _ _ _ _ _) as [[[e|[s f]] b1] t1]; reflexivity.
Qed.

(** The method, by stages: discovery, destination, loop. *)
Lemma upload_with_breaks_eq host local name id exts b :
  let files := scan exts (rglob host local) in
  let found := Log INFO (MFound (Z.of_nat (List.length files))) in
  upload_with_breaks host local name id exts b =
  if negb (path_exists host local) then
    (inr tt, b, [Log ERROR (MErrOccurred ("Local folder '" ++ local ++ "' not found!"))])
  else
    match files with
    | [] => (inr tt, b, [found; Log INFO MNoFiles])
    | _ :: _ =>
        match destination name id b with
        | (inl e, b1, t1) =>
            (inr tt, b1, (found :: t1 ++ [Log ERROR (MErrOccurred (exc_str e))])%list)
        | (inr None, b1, t1) => (inr tt, b1, found :: t1)
        | (inr (Some target), b1, t1) =>
            match upload_all host files target b1 with
            | (inl e, b2, t2) =>
                (inr tt, b2,
                 (found :: t1 ++ t2 ++ [Log ERROR (MErrOccurred (exc_str e))])%list)
            | (inr _, b2, t2) => (inr tt, b2, (found :: t1 ++ t2)%list)
            end
        end
    end.
Proof.
  cbv zeta. unfold upload_with_breaks, try_except, bind at 1, get_files_to_upload.
  destruct (negb (path_exists host local)); [reflexivity|].
  unfold bind at 1, emit at 1, ret at 1. cbn [fst snd app].
  destruct (scan exts (rglob host local)) as [|p rest]; [reflexivity|].
  unfold bind at 1.
  destruct (destination name id b) as [[[e|[target|]] b1] t1]; cbn [app].
  - reflexivity.
  - destruct (upload_all host (p :: rest) target b1) as [[[e|[]] b2] t2];
      unfold emit; cbn [app]; rewrite <- ?app_assoc, ?app_nil_r; reflexivity.
  - unfold ret. rewrite !app_nil_r. reflexivity.
Qed.

Lemma destination_eq name id b :
  destination name id b =
  match truthy id with
  | Some i => (inr (Some i), b, [Log INFO (MUsingFolder i)])
  | None =>
      match truthy name with
      | Some n =>
          match create_drive_folder n "root" b with
          | (inl e, b1, t1) => (inl e, b1, t1)
          | (inr o, b1, t1) =>
              match truthy o with
              | Some t => (inr (Some t), b1, t1)
              | None => (inr None, b1, (t1 ++ [Log ERROR MFailedDestination])%list)
              end
          end
      | None => (inr (Some "root"), b, [])
      end
  end.
Proof.
  unfold destination. destruct (truthy id); [reflexivity|].
  destruct (truthy name); [|reflexivity].
  unfold bind. destruct (create_drive_folder s "root" b) as [[[e|o] b1] t1]; [reflexivity|].
  destruct (truthy o); cbn; rewrite ?app_nil_r; reflexivity.
Qed.

Ltac folder_cases b :=
  rewrite create_drive_folder_eq; cbv zeta;
  let F1 := fresh "F1" in let L := fresh "L" in let F2 := fresh "F2" in
  destruct (faulty b) eqn:F1;
  [| destruct (filter _ (store (service b))) as [|? ?] eqn:L;
     [destruct (faulty (tick b)) eqn:F2|]].

Ltac tick_fields_tac :=
  repeat match goal with
    | |- context [tick ?x] =>
        let H := fresh in pose proof (tick_fields x) as H; revert H;
        generalize (tick x); intros ? (-> & -> & ->)
    end.

(** Resolving the destination never raises, attempts no upload and leaves
    the pacing fields alone; when it gives no target it has logged an
    error. *)
Lemma destination_spec name id b :
  exists o b1 t1,
    destination name id b = (inr o, b1, t1) /\
    (uploaded_count b1 = uploaded_count b /\
     batch_size b1 = batch_size b /\
     break_duration b1 = break_duration b) /\
    (attempts t1 = [] /\ uploads t1 = [] /\ failed_paths t1 = [] /\
     reported_failed t1 = [] /\ sleeps t1 = []) /\
    (exists ext, store (service b1) = (store (service b) ++ ext)%list) /\
    (o = None -> forallb (fun e => negb (is_error e)) t1 = false).
Proof.
  rewrite destination_eq.
  destruct (truthy id) as [i|].
  { do 3 eexists. split; [reflexivity|]. repeat split; try discriminate.
    exists []. rewrite app_nil_r. reflexivity. }
  destruct (truthy name) as [n|].
  2:{ do 3 eexists. split; [reflexivity|]. repeat split; try discriminate.
      exists []. rewrite app_nil_r. reflexivity. }
  folder_cases b; cbn [truthy];
    try match goal with
      | |- context [Str.nonempty ?x] => destruct (Str.nonempty x)
      end;
    do 3 eexists; (split; [reflexivity|]);
    (split; [cbn; tick_fields_tac; auto|]);
    (split; [cbn; auto|]);
    (split; [cbn; rewrite ?tick_store; eexists; try reflexivity;
             try (symmetry; apply app_nil_r)|]);
    cbn; try discriminate; auto.
Qed.

(** ** Partial failure isolation *)

(** C4. With the pacing fields as [__init__] leaves them (a non-zero batch
    size, a non-negative break), a run in which some upload failed still
    ends normally, has looked up every discovered file in discovery order
    under one target folder, and reports in its summary exactly as many
    failed uploads as "Error uploading" records were logged. *)
Theorem partial_failure_isolation host local name id exts b :
  batch_size b <> 0 ->
  0 <= break_duration b ->
  let r := upload_with_breaks host local name id exts b in
  failed_paths (trace r) <> [] ->
  result r = inr tt /\
  exists target,
    attempts (trace r) =
      map (fun p => (Str.basename p, target)) (scan exts (rglob host local)) /\
    reported_failed (trace r) = [failures (trace r)].
Proof.
  intros Hb Hd. cbv zeta. rewrite upload_with_breaks_eq. cbv zeta.
  destruct (negb (path_exists host local)); [intros H; exfalso; apply H; reflexivity|].
  destruct (scan exts (rglob host local)) as [|p rest] eqn:Efiles;
    [intros H; exfalso; apply H; reflexivity|].
  destruct (destination_spec name id b)
    as (o & b1 & t1 & -> & (_ & Eb & Ed) & (A1 & _ & F1 & R1 & _) & _ & _).
  destruct o as [target|].
  2:{ intros H. exfalso. apply H. unfold trace. cbn [snd].
      change (failed_paths (?x :: t1)) with (failed_paths t1). exact F1. }
  rewrite upload_all_eq. cbv zeta.
  destruct (upload_loop_complete host target (Z.of_nat (List.length (p :: rest)))
              (p :: rest) 0 0 0 b1) as (s' & f' & b2 & t2 & -> & A2 & F2 & _ & R2 & _);
    [congruence | lia |].
  intros _. split; [reflexivity|]. exists target.
  unfold trace, failures. cbn [snd].
  change (Log INFO (MFound ?n) :: ?l) with ([Log INFO (MFound n)] ++ l)%list.
  change (Log INFO (MStarting ?n) :: ?l) with ([Log INFO (MStarting n)] ++ l)%list.
  rewrite !attempts_app, !reported_failed_app, !failed_paths_app, A1, R1, F1, A2, R2.
  unfold failures in F2. subst f'.
  split; cbn; rewrite ?app_nil_r; reflexivity.
Qed.

Lemma partial_failure_isolation_witness :
  let b := new_bot (empty_service [true]) in
  let r := upload_with_breaks sample_host "d" None None None b in
  batch_size b <> 0 /\ 0 <= break_duration b /\ failed_paths (trace r) <> [] /\
  result r = inr tt /\
  exists target,
    attempts (trace r) =
      map (fun p => (Str.basename p, target)) (scan None (rglob sample_host "d")) /\
    reported_failed (trace r) = [failures (trace r)].
Proof.
  cbv zeta.
  assert (H1 : batch_size (new_bot (empty_service [true])) <> 0) by (cbn; lia).
  assert (H2 : 0 <= break_duration (new_bot (empty_service [true]))) by (cbn; lia).
  assert (H3 : failed_paths
                 (trace (upload_with_breaks sample_host "d" None None None
                           (new_bot (empty_service [true])))) <> [])
    by (vm_compute; discriminate).
  split; [exact H1|]. split; [exact H2|]. split; [exact H3|].
  exact (partial_failure_isolation sample_host "d" None None None
           (new_bot (empty_service [true])) H1 H2 H3).
Defined.

(** ** Skipping files that are already there *)

(** C2, as stated, fails: with the name listed under the folder and a
    lookup that raises, [upload_file] returns [False], logs the failure, and
    the loop counts the file as failed. *)
Lemma existing_file_fails_when_lookup_raises :
  let b := new_bot (one_file_service [true]) in
  let r := upload_file sample_host "d/sub/a.txt" "root" b in
  present (Str.basename "d/sub/a.txt") "root" (service b) = true /\
  result r = inr false /\
  failed_paths (trace r) = ["d/sub/a.txt"] /\
  result (upload_loop sample_host "root" 1 0 ["d/sub/a.txt"] 0 0 b) = inr (0, 1).
Proof. repeat split; reflexivity. Qed.

(** C2, amended. When a file of the same name is listed directly under the
    destination folder, [upload_file] issues no transfer and leaves the
    remote store as it was, whether or not the lookup returns.  When the
    lookup returns, the call returns [True], logs no failure, and the loop
    counts the file as a success; when the lookup raises, the call returns
    [False], logs the failure, and the loop counts the file as failed. *)
Theorem upload_file_skips_existing host file_path folder b :
  present (Str.basename file_path) folder (service b) = true ->
  let r := upload_file host file_path folder b in
  uploads (trace r) = [] /\
  store (service (final r)) = store (service b) /\
  (faulty b = false ->
   result r = inr true /\
   failed_paths (trace r) = [] /\
   forall i s f, batch_size b <> 0 ->
     result (upload_loop host folder (i + 1) i [file_path] s f b) = inr (s + 1, f)) /\
  (faulty b = true ->
   result r = inr false /\
   failed_paths (trace r) = [file_path] /\
   forall i s f, batch_size b <> 0 ->
     result (upload_loop host folder (i + 1) i [file_path] s f b) = inr (s, f + 1)).
Proof.
  intros P. cbv zeta.
  assert (Hlast : forall i, (i <? i + 1 - 1) = false)
    by (intros i; apply Z.ltb_ge; lia).
  destruct (tick_fields b) as (_ & Eb & _).
  split; [|split; [|split]].
  - apply (upload_file_idle host file_path folder b P).
  - apply (upload_file_idle host file_path folder b P).
  - intros F. rewrite upload_file_eq. cbv zeta. rewrite F, P.
    split; [reflexivity|]. split; [reflexivity|].
    intros i s f Hb. rewrite upload_loop_cons, upload_file_eq. cbv zeta.
    rewrite F, P. unfold counted, pause_due.
    cbn [batch_size uploaded_count set_uploaded_count]. rewrite Eb.
    apply Z.eqb_neq in Hb. rewrite Hb, Hlast, andb_false_r. reflexivity.
  - intros F. rewrite upload_file_eq. cbv zeta. rewrite F.
    split; [reflexivity|]. split; [reflexivity|].
    intros i s f Hb. rewrite upload_loop_cons, upload_file_eq. cbv zeta.
    rewrite F. unfold counted, pause_due. rewrite Eb.
    apply Z.eqb_neq in Hb. rewrite Hb, Hlast, andb_false_r. reflexivity.
Qed.

Lemma upload_file_skips_existing_witness :
  let b := new_bot (one_file_service []) in
  let r := upload_file sample_host "d/sub/a.txt" "root" b in
  let b' := new_bot (one_file_service [true]) in
  let r' := upload_file sample_host "d/sub/a.txt" "root" b' in
  present (Str.basename "d/sub/a.txt") "root" (service b) = true /\
  faulty b = false /\ batch_size b <> 0 /\
  present (Str.basename "d/sub/a.txt") "root" (service b') = true /\
  faulty b' = true /\ batch_size b' <> 0 /\
  (uploads (trace r) = [] /\
   store (service (final r)) = store (service b) /\
   result r = inr true /\
   failed_paths (trace r) = [] /\
   result (upload_loop sample_host "root" (0 + 1) 0 ["d/sub/a.txt"] 0 0 b)
   = inr (0 + 1, 0)) /\
  (uploads (trace r') = [] /\
   store (service (final r')) = store (service b') /\
   result r' = inr false /\
   failed_paths (trace r') = ["d/sub/a.txt"] /\
   result (upload_loop sample_host "root" (0 + 1) 0 ["d/sub/a.txt"] 0 0 b')
   = inr (0, 0 + 1)).
Proof.
  cbv zeta.
  assert (P1 : present (Str.basename "d/sub/a.txt") "root"
                 (service (new_bot (one_file_service []))) = true) by reflexivity.
  assert (F1 : faulty (new_bot (one_file_service [])) = false) by reflexivity.
  assert (B1 : batch_size (new_bot (one_file_service [])) <> 0) by (cbn; lia).
  assert (P2 : present (Str.basename "d/sub/a.txt") "root"
                 (service (new_bot (one_file_service [true]))) = true) by reflexivity.
  assert (F2 : faulty (new_bot (one_file_service [true])) = true) by reflexivity.
  assert (B2 : batch_size (new_bot (one_file_service [true])) <> 0) by (cbn; lia).
  repeat (split; [assumption|]).
  split.
  - destruct (upload_file_skips_existing sample_host "d/sub/a.txt" "root"
                (new_bot (one_file_service [])) P1) as (U & S & Hok & _).
    destruct (Hok F1) as (R & Fp & L).
    repeat (split; [assumption|]). exact (L 0 0 0 B1).
  - destruct (upload_file_skips_existing sample_host "d/sub/a.txt" "root"
                (new_bot (one_file_service [true])) P2) as (U & S & _ & Hko).
    destruct (Hko F2) as (R & Fp & L).
    repeat (split; [assumption|]). exact (L 0 0 0 B2).
Defined.

(** ** Content type *)

(** C8. Every transfer [upload_file] issues carries the type
    [mimetypes.guess_type] infers for the path, or
    [application/octet-stream] when it infers none, and the resource the
    remote stores has that type. *)
Theorem upload_file_content_type host file_path folder b :
  let mime :=
    match fst (guess_type host file_path) with
    | Some m => m
    | None => "application/octet-stream"
    end in
  let r := upload_file host file_path folder b in
  Forall (fun bm => m_filename (snd bm) = file_path /\ m_mimetype (snd bm) = mime)
         (uploads (trace r)) /\
  (store (service (final r)) = store (service b) \/
   exists f, store (service (final r)) = (store (service b) ++ [f])%list /\
             rf_mimeType f = mime).
Proof.
  cbv zeta. upload_cases b; cbn; rewrite ?tick_store;
    (split; [repeat constructor|auto]).
  right. eexists. split; reflexivity.
Qed.

(** The two cases of C8 on the sample host: a known and an unknown
    extension. *)
Example content_type_known :
  uploads (trace (upload_file sample_host "d/a.txt" "root" (new_bot (empty_service [])))) =
  [(upload_body "d/a.txt" "root",
    {| m_filename := "d/a.txt"; m_mimetype := "text/plain"; m_resumable := true |})].
Proof. reflexivity. Qed.

Example content_type_fallback :
  uploads (trace (upload_file sample_host "d/b.JPG" "root" (new_bot (empty_service [])))) =
  [(upload_body "d/b.JPG" "root",
    {| m_filename := "d/b.JPG"; m_mimetype := "application/octet-stream";
       m_resumable := true |})].
Proof. reflexivity. Qed.

(** ** Where the calls of a run go *)

Lemma api_calls_app t1 t2 : api_calls (t1 ++ t2) = (api_calls t1 ++ api_calls t2)%list.
Proof. apply flat_map_app. Qed.

Lemma upload_file_flat host target files p b :
  In p files -> Forall (flat_under target files) (trace (upload_file host p target b)).
Proof.
  intros Hin. upload_cases b; cbn; repeat constructor; auto.
Qed.

Lemma upload_loop_flat host target total files i s f b :
  Forall (flat_under target files) (trace (upload_loop host target total i files s f b)).
Proof.
  apply upload_loop_Forall with (all := files); cbn; auto.
  - intros. apply upload_file_flat. assumption.
  - apply incl_refl.
Qed.

Lemma flat_under_observed target files t :
  Forall (flat_under target files) t ->
  folder_creates t = [] /\
  Forall (fun a => snd a = target) (attempts t) /\
  Forall (flat_upload target files) (uploads t).
Proof.
  induction 1 as [|e t He _ (IH1 & IH2 & IH3)].
  - repeat split; constructor.
  - unfold folder_creates, attempts, uploads in *. cbn [flat_map].
    destruct e as [[q|body [media|]]| | | |]; cbn in *;
      try (repeat split; assumption); try contradiction.
    + destruct q as [[n|] par [m|]]; cbn in *; repeat split; auto.
    + repeat split; auto.
Qed.

(** The calls of [upload_with_breaks], stage by stage: either the run ends
    before a destination is asked for, and no call is made; or the
    destination is resolved, and then every other call the run makes is a
    call of the loop over the discovered files towards that one target. *)
Lemma upload_with_breaks_calls host local name id exts b :
  let r := upload_with_breaks host local name id exts b in
  let files := scan exts (rglob host local) in
  ((path_exists host local = false \/ files = []) /\
   api_calls (trace r) = [] /\ final r = b) \/
  (path_exists host local = true /\ files <> [] /\
   exists o b1 t1,
     destination name id b = (inr o, b1, t1) /\
     folder_creates (trace r) = folder_creates t1 /\
     match o with
     | None =>
         attempts (trace r) = [] /\ uploads (trace r) = [] /\ final r = b1
     | Some target =>
         let l := upload_loop host target (Z.of_nat (List.length files)) 0 files 0 0 b1 in
         attempts (trace r) = attempts (trace l) /\
         uploads (trace r) = uploads (trace l) /\
         final r = final l /\
         Forall (flat_under target files) (trace l)
     end).
Proof.
  cbv zeta. rewrite upload_with_breaks_eq. cbv zeta.
  destruct (path_exists host local); cbn [negb]; [|left; auto].
  destruct (scan exts (rglob host local)) as [|p rest] eqn:Efiles; [left; auto|].
  right. split; [reflexivity|]. split; [discriminate|].
  destruct (destination_spec name id b)
    as (o & b1 & t1 & E & _ & (A1 & U1 & _ & _ & _) & _ & _).
  exists o, b1, t1. split; [exact E|]. rewrite E.
  destruct o as [target|].
  2:{ unfold trace, final. cbn [fst snd].
      change (Log INFO (MFound ?n) :: ?l) with ([Log INFO (MFound n)] ++ l)%list.
      rewrite folder_creates_app, attempts_app, uploads_app, A1, U1. auto. }
  rewrite upload_all_eq. cbv zeta.
  pose proof (upload_loop_flat host target (Z.of_nat (List.length (p :: rest)))
                (p :: rest) 0 0 0 b1) as Hflat.
  destruct (flat_under_observed _ _ _ Hflat) as (G2 & _ & _).
  destruct (upload_loop _ _ _ _ _ _ _ _) as [[[e|[s' f']] b2] t2];
    unfold trace, final in *; cbn [fst snd] in *;
    change (Log INFO (MFound ?n) :: ?l) with ([Log INFO (MFound n)] ++ l)%list;
    change (Log INFO (MStarting ?n) :: ?l) with ([Log INFO (MStarting n)] ++ l)%list;
    rewrite !folder_creates_app, !attempts_app, !uploads_app, A1, U1, G2;
    cbn; rewrite ?app_nil_r; auto.
Qed.

(** Once the destination is resolved, a run with sound pacing fields looks
    up every discovered file, in order, in the target, and makes its
    transfers there. *)
Lemma upload_with_breaks_resolved host local name id exts b target b1 t1 :
  path_exists host local = true ->
  scan exts (rglob host local) <> [] ->
  destination name id b = (inr (Some target), b1, t1) ->
  let r := upload_with_breaks host local name id exts b in
  let files := scan exts (rglob host local) in
  folder_creates (trace r) = folder_creates t1 /\
  Forall (fun a => snd a = target) (attempts (trace r)) /\
  Forall (flat_upload target files) (uploads (trace r)) /\
  (exists ext, store (service (final r)) = (store (service b1) ++ ext)%list) /\
  (batch_size b <> 0 -> 0 <= break_duration b ->
   attempts (trace r) = map (fun p => (Str.basename p, target)) files).
Proof.
  intros Hp Hf Hd. cbv zeta.
  destruct (upload_with_breaks_calls host local name id exts b)
    as [([Hp'|Hf'] & _)|(_ & _ & o & b1' & t1' & Hd' & G & Hrest)];
    [congruence | contradiction |].
  rewrite Hd in Hd'. inversion Hd'; subst o b1' t1'. cbv zeta in Hrest.
  destruct Hrest as (A & U & Fin & Hflat).
  destruct (flat_under_observed _ _ _ Hflat) as (_ & HA & HU).
  rewrite A, U, Fin. repeat split; auto.
  - apply upload_loop_store.
  - intros Hb Hbr.
    destruct (destination_spec name id b) as (o & b1' & t1' & E & (_ & Eb & Ed) & _).
    rewrite Hd in E. inversion E; subst o b1' t1'.
    destruct (upload_loop_complete host target
                (Z.of_nat (List.length (scan exts (rglob host local))))
                (scan exts (rglob host local)) 0 0 0 b1)
      as (s' & f' & b2 & t2 & El & A2 & _); [congruence | lia |].
    rewrite El. exact A2.
Qed.

(** ** Default destination *)



(** The only folder [destination] may create is the named one, under
    ['root']. *)
Lemma destination_folder_creates name id b o b1 t1 :
  destination name id b = (inr o, b1, t1) ->
  folder_creates t1 = [] \/
  exists n, name = Some n /\ folder_creates t1 = [folder_body n "root"].
Proof.
  rewrite destination_eq.
  destruct (truthy id); [intros H; inversion H; auto|].
  destruct (truthy name) as [n|] eqn:En; [|intros H; inversion H; auto].
  assert (name = Some n) as ->.
  { destruct name as [m|]; [|discriminate]. cbn in En.
    destruct (Str.nonempty m); congruence. }
  folder_cases b; cbn [truthy];
    try match goal with
      | |- context [Str.nonempty ?x] => destruct (Str.nonempty x)
      end;
    intros H; inversion H; subst; rewrite ?folder_creates_app; cbn; eauto.
Qed.

(** ** One flat destination *)

(** On the sample host the two [a.txt] of the tree end as one remote file. *)
Example collision_on_sample_host :
  map rf_name
    (store (service (final (upload_with_breaks sample_host "d" None None None
                              (new_bot (empty_service [])))))) =
  ["a.txt"; "b.JPG"].
Proof. reflexivity. Qed.

(** ** Folder resolution *)




(** The second case of C6 on the sample host: the folder is already listed. *)
Example existing_folder_is_reused :
  let sv := {| store := [{| rf_id := "f7"; rf_name := "uploads"; rf_parents := ["root"];
                            rf_mimeType := folder_mime |}];
               next_id := 0; faults := [] |} in
  let r := upload_with_breaks sample_host "d" (Some "uploads") None None (new_bot sv) in
  folder_creates (trace r) = [] /\
  attempts (trace r) = [("a.txt", "f7"); ("a.txt", "f7"); ("b.JPG", "f7")].
Proof. split; reflexivity. Qed.

(** ** Setup errors *)

(** [_authenticate] makes no call on the service and leaves it alone. *)
Lemma authenticate_quiet host credentials_file token_file (sv : Service) :
  let r := @_authenticate host Service credentials_file token_file sv in
  final r = sv /\ api_calls (trace r) = [].
Proof.
  cbv zeta. unfold _authenticate, external, bind, raise, ret, emit.
  destruct (path_exists host token_file);
    [destruct (valid _); cbn [negb]; [auto|];
     destruct (expired _ && refresh_token _)%bool|];
    try destruct (oauth_refresh host); try destruct (path_exists host credentials_file);
    cbn [negb]; try destruct (oauth_flow host); auto.
Qed.

Lemma authenticate_missing host credentials_file token_file (sv : Service) :
  usable_token host token_file = false ->
  path_exists host credentials_file = false ->
  @_authenticate host Service credentials_file token_file sv =
  (inl (FileNotFoundError ("Credentials file '" ++ credentials_file ++ "' not found!")),
   sv, []).
Proof.
  unfold usable_token, _authenticate, external, bind, raise, ret, emit.
  intros U C. rewrite C.
  destruct (path_exists host token_file); [|reflexivity].
  cbn [andb] in U. destruct (valid _); [discriminate|].
  cbn [orb negb] in U |- *. rewrite U. reflexivity.
Qed.

(** C7. A setup error ends the run before any call on the remote service,
    hence before any upload, and leaves a line on the console: when the
    client-secret file is missing and the stored token cannot be used,
    [main] prints the error; when the local directory is missing,
    [upload_with_breaks] logs it at level ERROR (the logging set-up of the
    script echoes records to the console), and so does [main] whenever it
    gets as far as starting the upload. *)
Theorem setup_errors_abort :
  (forall host argv sv,
     usable_token host "token.json" = false ->
     path_exists host "credentials.json" = false ->
     let r := main host argv sv in
     api_calls (trace r) = [] /\ final r = sv /\
     In (Print "Error: Credentials file 'credentials.json' not found!")
        (filter on_console (trace r))) /\
  (forall host local name id exts b,
     path_exists host local = false ->
     let r := upload_with_breaks host local name id exts b in
     api_calls (trace r) = [] /\ final r = b /\
     In (Log ERROR (MErrOccurred ("Local folder '" ++ local ++ "' not found!")))
        (filter on_console (trace r))) /\
  (forall host argv sv,
     path_exists host LOCAL_FOLDER = false ->
     list_mode argv = false ->
     let r := main host argv sv in
     api_calls (trace r) = [] /\ final r = sv /\
     (result (@_authenticate host Service "credentials.json" "token.json" sv) = inr tt ->
      In (Log ERROR (MErrOccurred "Local folder './files_to_upload' not found!"))
         (filter on_console (trace r)))).
Proof.
  split; [|split].
  - intros host argv sv U C. cbv zeta.
    remember (main host argv sv) as r eqn:Er.
    unfold main, try_except in Er. unfold bind at 1 in Er.
    rewrite (authenticate_missing host _ _ sv U C) in Er. subst r. cbn. auto.
  - intros host local name id exts b Hp. cbv zeta.
    rewrite upload_with_breaks_eq. cbv zeta. rewrite Hp. cbn. auto.
  - intros host argv sv Hp Hl. cbv zeta.
    remember (main host argv sv) as r eqn:Er.
    unfold main, try_except in Er. unfold bind at 1 in Er.
    destruct (authenticate_quiet host "credentials.json" "token.json" sv) as [Hs Ha].
    destruct (_authenticate host "credentials.json" "token.json" sv) as [[[e|[]] s1] t1];
      unfold final, trace, result in Hs, Ha |- *; cbn [fst snd] in Hs, Ha; subst s1.
    + subst r. cbn. rewrite api_calls_app, Ha. cbn. repeat split; auto. discriminate.
    + rewrite Hl in Er.
      cbv [bind get ret emit banner on_bot truthy DRIVE_FOLDER_ID] in Er.
      rewrite upload_with_breaks_eq in Er. cbv zeta in Er.
      rewrite Hp in Er. cbn [negb] in Er. subst r.
      cbn. rewrite api_calls_app, Ha, filter_app. cbn. repeat split; auto.
      intros _. apply in_or_app. right.
      repeat (try (left; reflexivity); right).
Qed.

Lemma setup_errors_abort_witness :
  let r := main bare_host ["main.py"] (empty_service []) in
  usable_token bare_host "token.json" = false /\
  path_exists bare_host "credentials.json" = false /\
  api_calls (trace r) = [] /\ final r = empty_service [] /\
  In (Print "Error: Credentials file 'credentials.json' not found!")
     (filter on_console (trace r)).
Proof.
  cbv zeta.
  assert (H1 : usable_token bare_host "token.json" = false) by reflexivity.
  assert (H2 : path_exists bare_host "credentials.json" = false) by reflexivity.
  split; [exact H1|]. split; [exact H2|].
  exact (proj1 setup_errors_abort bare_host ["main.py"] (empty_service []) H1 H2).
Defined.

(** ** Running twice *)

Lemma quiet_app t1 t2 : quiet (t1 ++ t2) = (quiet t1 && quiet t2)%bool.
Proof. apply forallb_app. Qed.

(** A run that logs no error found the directory and, when it found files
    in it, resolved a target, went through the whole loop and left every
    discovered name listed under the target. *)
Lemma clean_run host local name id exts b :
  let r := upload_with_breaks host local name id exts b in
  let files := scan exts (rglob host local) in
  quiet (trace r) = true ->
  path_exists host local = true /\
  ((files = [] /\ final r = b) \/
   exists target b1 t1,
     files <> [] /\
     destination name id b = (inr (Some target), b1, t1) /\
     quiet t1 = true /\
     (exists ext, store (service (final r)) = (store (service b1) ++ ext)%list) /\
     forall p, In p files -> present (Str.basename p) target (service (final r)) = true).
Proof.
  cbv zeta. rewrite upload_with_breaks_eq. cbv zeta.
  destruct (path_exists host local); cbn [negb]; [|discriminate].
  intros Hq. split; [reflexivity|].
  destruct (scan exts (rglob host local)) as [|p rest] eqn:Efiles; [left; auto|].
  right.
  destruct (destination_spec name id b) as (o & b1 & t1 & E & _ & _ & _ & Hnone).
  rewrite E in Hq |- *.
  destruct o as [target|].
  2:{ unfold trace in Hq. cbn [snd] in Hq.
      change (quiet (?x :: t1)) with (negb (is_error x) && quiet t1)%bool in Hq.
      cbn [is_error negb andb] in Hq. unfold quiet in Hq.
      rewrite (Hnone eq_refl) in Hq. discriminate. }
  exists target, b1, t1. split; [discriminate|]. split; [reflexivity|].
  revert Hq. rewrite upload_all_eq. cbv zeta.
  pose proof (upload_loop_store host target (Z.of_nat (List.length (p :: rest)))
                (p :: rest) 0 0 0 b1) as Hst.
  pose proof (upload_loop_present host target (Z.of_nat (List.length (p :: rest)))
                (p :: rest) 0 0 0 b1) as Hpr.
  cbv zeta in Hpr.
  destruct (upload_loop _ _ _ _ _ _ _ _) as [[[e|[s' f']] b2] t2];
    unfold trace, final, result in *; cbn [fst snd] in *;
    change (Log INFO (MFound ?n) :: ?l) with ([Log INFO (MFound n)] ++ l)%list;
    change (Log INFO (MStarting ?n) :: ?l) with ([Log INFO (MStarting n)] ++ l)%list;
    rewrite !quiet_app; cbn [quiet forallb is_error negb andb];
    rewrite ?andb_false_r; intros Hq; try discriminate.
  apply andb_true_iff in Hq as [Hq1 Hq2].
  rewrite andb_true_r in Hq2.
  repeat split; auto.
  apply Hpr; eauto.
Qed.

Lemma folder_matches folder_name parent n :
  matches (folder_query folder_name parent)
          (created (folder_body folder_name parent) None n) = true.
Proof.
  unfold matches, folder_query, created, folder_body, Str.mem. cbn.
  rewrite !String.eqb_refl. reflexivity.
Qed.

(** Resolving the same destination again, on a store that has only grown
    at its end: the target is the same, or the lookup raises and there is
    none; in both cases the store is left as it is. *)
Lemma destination_again name id b target b1 t1 b' ext :
  destination name id b = (inr (Some target), b1, t1) ->
  store (service b') = (store (service b1) ++ ext)%list ->
  exists o' b1' t1',
    destination name id b' = (inr o', b1', t1') /\
    store (service b1') = store (service b') /\
    folder_creates t1' = [] /\
    (o' = None \/ o' = Some target).
Proof.
  rewrite !destination_eq.
  destruct (truthy id) as [i|].
  { intros H _. inversion H; subst. do 3 eexists. repeat split; auto. }
  destruct (truthy name) as [n|].
  2:{ intros H _. inversion H; subst. do 3 eexists. repeat split; auto. }
  rewrite !create_drive_folder_eq. cbv zeta.
  destruct (faulty b); [cbn; discriminate|].
  destruct (filter (matches (folder_query n "root")) (store (service b)))
    as [|found others] eqn:L.
  - destruct (faulty (tick b)); [cbn; discriminate|].
    cbn [truthy created rf_id]. change (Str.nonempty (fresh_id ?k)) with true. cbv iota.
    intros H Hs. inversion H; subst target b1 t1. clear H.
    rewrite stored_store, !tick_store, <- app_assoc in Hs. cbn [app] in Hs.
    destruct (faulty b').
    + do 3 eexists. split; [reflexivity|]. rewrite tick_store. repeat split; auto.
    + rewrite Hs, filter_app, L. cbn [app filter].
      rewrite folder_matches. cbn [truthy created rf_id].
      change (Str.nonempty (fresh_id ?k)) with true. cbv iota.
      do 3 eexists. split; [reflexivity|]. rewrite tick_store. repeat split; auto.
  - cbn [truthy]. destruct (Str.nonempty (rf_id found)) eqn:Hn; [|discriminate].
    intros H Hs. inversion H; subst target b1 t1. clear H.
    rewrite tick_store in Hs.
    destruct (faulty b').
    + do 3 eexists. split; [reflexivity|]. rewrite tick_store. repeat split; auto.
    + rewrite Hs, filter_app, L. cbn [app truthy]. rewrite Hn.
      do 3 eexists. split; [reflexivity|]. rewrite tick_store. repeat split; auto.
Qed.

(** C3, as stated, fails: when the lookup of the first run raises, the file
    is counted as failed and nothing is stored; the second run then
    uploads it. *)
Lemma second_run_uploads_after_failure :
  let b0 := new_bot (empty_service [true]) in
  let first := upload_with_breaks report_host "d" None None None b0 in
  let second := upload_with_breaks report_host "d" None None None (final first) in
  store (service (final first)) = [] /\
  map rf_name (store (service (final second))) = ["report.TXT"] /\
  store (service (final second)) <> store (service (final first)).
Proof. repeat split; vm_compute; discriminate. Qed.

(** C3, amended. If the first run logged no error (every attempt succeeded
    and the destination was resolved), a second run over the same directory
    with the same destination arguments, started on the store the first run
    left, whatever its counters and whatever the remote calls do this time,
    creates nothing: no transfer, no folder, and the store is the one the
    first run left. *)
Theorem second_run_idle host local name id exts b b' :
  let first := upload_with_breaks host local name id exts b in
  quiet (trace first) = true ->
  store (service b') = store (service (final first)) ->
  let second := upload_with_breaks host local name id exts b' in
  uploads (trace second) = [] /\
  folder_creates (trace second) = [] /\
  store (service (final second)) = store (service (final first)).
Proof.
  intros first Hq Hs second. subst first second.
  destruct (clean_run host local name id exts b Hq)
    as (Hp & [(Hnil & _)|(target & b1 & t1 & Hf & Hd & _ & (ext & Hgrow) & Hpres)]).
  - destruct (upload_with_breaks_calls host local name id exts b')
      as [(_ & Hapi & Hfin)|(_ & Hf & _)]; [|contradiction].
    assert (Q : forall t : list Event, api_calls t = [] ->
                  uploads t = [] /\ folder_creates t = []).
    { induction t as [|e t IH]; [auto|]. unfold api_calls. cbn [flat_map].
      destruct e; cbn; try discriminate; exact IH. }
    destruct (Q _ Hapi) as (-> & ->). rewrite Hfin. auto.
  - rewrite Hgrow in Hs.
    destruct (destination_again name id b target b1 t1 b' ext Hd Hs)
      as (o' & b1' & t1' & Hd' & Hs' & G' & Ho').
    destruct (upload_with_breaks_calls host local name id exts b')
      as [([Hp'|Hf'] & _)|(_ & _ & o & b1'' & t1'' & Hd'' & G & Hrest)];
      [congruence | contradiction |].
    rewrite Hd' in Hd''. inversion Hd''; subst o b1'' t1''. clear Hd''.
    rewrite G, G'. rewrite <- Hgrow in Hs.
    destruct Ho' as [->| ->].
    + destruct Hrest as (_ & -> & ->). rewrite Hs', Hs. auto.
    + cbv zeta in Hrest. destruct Hrest as (_ & -> & -> & _).
      destruct (upload_loop_idle host target
                  (Z.of_nat (List.length (scan exts (rglob host local))))
                  (scan exts (rglob host local)) 0 0 0 b1') as [Hst Hup].
      { intros p Hin. unfold present. rewrite Hs', Hs. apply (Hpres p Hin). }
      rewrite Hst, Hup, Hs', Hs. auto.
Qed.

Lemma second_run_idle_witness :
  let b := new_bot (empty_service []) in
  let first := upload_with_breaks sample_host "d" (Some "uploads") None None b in
  let b' := new_bot {| store := store (service (final first)); next_id := 9;
                       faults := [false; false; true] |} in
  let second := upload_with_breaks sample_host "d" (Some "uploads") None None b' in
  quiet (trace first) = true /\
  store (service b') = store (service (final first)) /\
  uploads (trace second) = [] /\
  folder_creates (trace second) = [] /\
  store (service (final second)) = store (service (final first)).
Proof.
  cbv zeta.
  assert (H1 : quiet (trace (upload_with_breaks sample_host "d" (Some "uploads") None None
                               (new_bot (empty_service [])))) = true) by reflexivity.
  split; [exact H1|]. split; [reflexivity|].
  exact (second_run_idle sample_host "d" (Some "uploads") None None
           (new_bot (empty_service [])) _ H1 eq_refl).
Defined.

(** ** The extension filter *)

Lemma mem_In x l : Str.mem x l = true <-> In x l.
Proof.
  unfold Str.mem. rewrite existsb_exists. split.
  - intros (y & Hy & E). apply String.eqb_eq in E. subst. exact Hy.
  - intros H. exists x. split; [exact H | apply String.eqb_refl].
Qed.

Lemma scan_In file_extensions entries p :
  In p (scan file_extensions entries) <->
  In (p, true) entries /\
  match file_extensions with
  | None => True
  | Some exts => In (Str.lower (Str.suffix p)) exts
  end.
Proof.
  induction entries as [|[q is_file] rest IH]; cbn [scan In].
  - tauto.
  - unfold keep at 1. cbn [fst].
    destruct is_file.
    + destruct file_extensions as [exts|].
      * destruct (Str.mem (Str.lower (Str.suffix q)) exts) eqn:M.
        -- apply mem_In in M. cbn [In]. rewrite IH. split.
           ++ intros [<-|[H1 H2]]; auto.
           ++ intros [[H|H] H2]; [inversion H; auto | auto].
        -- rewrite IH. split.
           ++ intros [H1 H2]; auto.
           ++ intros [[H|H] H2]; [|auto]. inversion H; subst.
              apply mem_In in H2. congruence.
      * cbn [In]. rewrite IH. split.
        -- intros [<-|[H1 H2]]; auto.
        -- intros [[H|H] H2]; [inversion H; auto | auto].
    + rewrite IH. split.
      * intros [H1 H2]; auto.
      * intros [[H|H] H2]; [discriminate | auto].
Qed.

(** C5, as stated, fails: the allow-list is compared as it is written, so
    an entry with upper-case letters admits no file, not even one whose
    extension is that very entry. *)
Lemma upper_case_entry_matches_nothing :
  let b := new_bot (empty_service []) in
  In (Str.suffix "d/report.TXT") [".TXT"] /\
  (exists e, In e [".TXT"] /\ Str.lower e = Str.lower (Str.suffix "d/report.TXT")) /\
  In ("d/report.TXT", true) (rglob report_host "d") /\
  result (get_files_to_upload report_host "d" (Some [".TXT"]) b) = inr [] /\
  attempts (trace (upload_with_breaks report_host "d" None None (Some [".TXT"]) b)) = [].
Proof.
  cbv zeta. split; [left; reflexivity|]. split.
  - exists ".TXT". split; [left|]; reflexivity.
  - split; [left; reflexivity|]. split; reflexivity.
Qed.

(** C5, amended. With an allow-list configured, a regular file under the
    source root is among the files handed to the upload loop if and only if
    its extension, put in lower case, is an element of the allow-list as
    written; no transfer is made for any other file.  When all entries of
    the allow-list are in lower case, this is membership up to case. *)
Theorem extension_filter host local exts (b : Bot) :
  path_exists host local = true ->
  exists files,
    result (get_files_to_upload host local (Some exts) b) = inr files /\
    (forall p, In p files <->
               In (p, true) (rglob host local) /\ In (Str.lower (Str.suffix p)) exts) /\
    (forall name id,
       Forall (fun bm => In (m_filename (snd bm)) files)
              (uploads (trace (upload_with_breaks host local name id (Some exts) b)))) /\
    ((forall e, In e exts -> Str.lower e = e) ->
     forall p, In p files <->
               In (p, true) (rglob host local) /\
               exists e, In e exts /\ Str.lower e = Str.lower (Str.suffix p)).
Proof.
  intros Hp. exists (scan (Some exts) (rglob host local)).
  split; [|split; [|split]].
  - unfold get_files_to_upload. rewrite Hp. reflexivity.
  - intros p. apply scan_In.
  - intros name id.
    destruct (upload_with_breaks_calls host local name id (Some exts) b)
      as [(_ & Hapi & _)|(_ & Hf & o & b1 & t1 & Hd & _ & Hrest)].
    + assert (Q : forall t : list Event, api_calls t = [] -> uploads t = []).
      { induction t as [|e t IH]; [auto|]. unfold api_calls. cbn [flat_map].
        destruct e; cbn; try discriminate; exact IH. }
      rewrite (Q _ Hapi). constructor.
    + destruct o as [target|].
      * destruct (upload_with_breaks_resolved host local name id (Some exts) b
                    target b1 t1 Hp Hf Hd) as (_ & _ & U & _).
        eapply Forall_impl; [|exact U]. intros bm (_ & _ & H). exact H.
      * destruct Hrest as (_ & -> & _). constructor.
  - intros Hlow p. rewrite scan_In. split.
    + intros [H1 H2]. split; [exact H1|].
      exists (Str.lower (Str.suffix p)). split; [exact H2 | apply Hlow; exact H2].
    + intros [H1 (e & He & Heq)]. split; [exact H1|].
      rewrite <- Heq, (Hlow e He). exact He.
Qed.

Lemma extension_filter_witness :
  let b := new_bot (empty_service []) in
  path_exists sample_host "d" = true /\
  (forall e, In e [".txt"; ".jpg"] -> Str.lower e = e) /\
  exists files,
    result (get_files_to_upload sample_host "d" (Some [".txt"; ".jpg"]) b) = inr files /\
    (In "d/b.JPG" files <->
     In ("d/b.JPG", true) (rglob sample_host "d") /\
     exists e, In e [".txt"; ".jpg"] /\ Str.lower e = Str.lower (Str.suffix "d/b.JPG")).
Proof.
  cbv zeta.
  assert (H1 : path_exists sample_host "d" = true) by reflexivity.
  assert (H2 : forall e, In e [".txt"; ".jpg"] -> Str.lower e = e)
    by (intros e [<-|[<-|[]]]; reflexivity).
  split; [exact H1|]. split; [exact H2|].
  destruct (extension_filter sample_host "d" [".txt"; ".jpg"]
              (new_bot (empty_service [])) H1) as (files & E & _ & _ & H).
  exists files. split; [exact E|]. exact (H H2 "d/b.JPG").
Defined.

(** The example of the specification: [a.txt], [b.jpg], [c.pdf] with the
    filter [{.txt, .pdf}]. *)
Example filter_example :
  scan (Some [".txt"; ".pdf"]) [("a.txt", true); ("b.jpg", true); ("c.pdf", true)] =
  ["a.txt"; "c.pdf"].
Proof. reflexivity. Qed.

(** ** Pacing *)

(** The test of line 224 sits after both branches of the [if] on
    [upload_file]: the loop pauses after a file exactly when the running
    counter is a multiple of the batch size and the file is not the last,
    whether or not that file has just incremented the counter. *)
Lemma no_pause_after_last_file host target i p s f b :
  sleeps (trace (upload_loop host target (i + 1) i [p] s f b)) = [].
Proof.
  rewrite upload_loop_cons.
  upload_facts host p target b. cbv zeta.
  destruct (batch_size (counted x b0) =? 0); [exact Hsl|].
  unfold pause_due.
  replace (i <? i + 1 - 1) with false by (symmetry; apply Z.ltb_ge; lia).
  rewrite andb_false_r. cbn. rewrite app_nil_r. exact Hsl.
Qed.

Lemma pause_follows_failure host target total i p rest s f b :
  batch_size b <> 0 ->
  0 <= break_duration b ->
  uploaded_count b mod batch_size b = 0 ->
  i < total - 1 ->
  faulty b = true ->
  exists t,
    trace (upload_loop host target total i (p :: rest) s f b) =
    (Api (FilesList (file_query (Str.basename p) target))
     :: Log ERROR (MErrUploading p "HttpError")
     :: Log INFO (MBreak (batch_size b) (break_duration b))
     :: Sleep (break_duration b) :: Log INFO MResuming :: t)%list.
Proof.
  intros Hb Hd Hm Hi F.
  rewrite upload_loop_cons, upload_file_eq. cbv zeta. rewrite F.
  destruct (tick_fields b) as (Ec & Eb & Ed).
  unfold counted, pause_due. rewrite Ec, Eb, Ed, Hm.
  apply Z.eqb_neq in Hb. rewrite Hb.
  apply Z.ltb_lt in Hi. rewrite Hi. cbn [Z.eqb andb].
  replace (break_duration b <? 0) with false by (symmetry; apply Z.ltb_ge; lia).
  destruct (upload_loop _ _ _ _ _ _ _ _) as [[r3 b3] t3].
  exists t3. unfold pause_events. rewrite Eb, Ed. reflexivity.
Qed.

(** C1, on a failing input: a new bot (counter 0, batch size 10, break
    180), the three files of the sample host, and a first lookup that
    raises.  The run sleeps 180 seconds right after the failed first file,
    before any upload has succeeded, and ends with the counter at 2: the
    pause follows no tenth increment of the counter. *)
Theorem pause_without_tenth_upload :
  let b := new_bot (empty_service [true]) in
  let r := upload_with_breaks sample_host "d" None None None b in
  uploaded_count b = 0 /\ batch_size b = 10 /\ break_duration b = 180 /\
  trace r = (firstn 5 (trace r) ++ Sleep 180 :: skipn 6 (trace r))%list /\
  failed_paths (firstn 5 (trace r)) = ["d/a.txt"] /\
  uploads (firstn 5 (trace r)) = [] /\
  sleeps (trace r) = [180] /\
  uploaded_count (final r) = 2.
Proof. cbv zeta. repeat split; vm_compute; reflexivity. Qed.

(** * Further properties of the methods *)

(** ** Discovery *)

Lemma scan_all entries :
  scan None entries = map fst (filter snd entries).
Proof.
  induction entries as [|[p is_file] rest IH]; [reflexivity|].
  cbn [scan keep filter snd fst]. destruct is_file; cbn [map fst]; rewrite IH; reflexivity.
Qed.

(** X1. Without an allow-list, [get_files_to_upload] on an existing folder
    returns the regular files among the entries of the traversal, all of
    them and in traversal order (directories are left out), makes the bot no
    different, and logs their number. *)
Theorem discovery_without_filter host local (b : Bot) :
  path_exists host local = true ->
  let files := map fst (filter snd (rglob host local)) in
  get_files_to_upload host local None b =
  (inr files, b, [Log INFO (MFound (Z.of_nat (List.length files)))]).
Proof.
  intros Hp. cbv zeta. unfold get_files_to_upload. rewrite Hp. cbn [negb].
  rewrite scan_all. reflexivity.
Qed.

Lemma discovery_without_filter_witness :
  let b := new_bot (empty_service []) in
  path_exists sample_host "d" = true /\
  get_files_to_upload sample_host "d" None b =
  (inr ["d/a.txt"; "d/sub/a.txt"; "d/b.JPG"], b, [Log INFO (MFound 3)]).
Proof.
  cbv zeta.
  assert (H : path_exists sample_host "d" = true) by reflexivity.
  split; [exact H|].
  exact (discovery_without_filter sample_host "d" (new_bot (empty_service [])) H).
Defined.

Lemma scan_no_extension entries : scan (Some []) entries = [].
Proof.
  induction entries as [|[p is_file] rest IH]; [reflexivity|].
  cbn [scan keep]. destruct is_file; cbn; exact IH.
Qed.

(** X2. An empty allow-list is not the absence of a filter: it selects no
    file, and the run then logs that there is nothing to upload, makes no
    call on the remote service and leaves the bot as it was. *)
Theorem empty_allow_list_uploads_nothing host local name id b :
  path_exists host local = true ->
  upload_with_breaks host local name id (Some []) b =
  (inr tt, b, [Log INFO (MFound 0); Log INFO MNoFiles]).
Proof.
  intros Hp. rewrite upload_with_breaks_eq. cbv zeta. rewrite Hp. cbn [negb].
  rewrite scan_no_extension. reflexivity.
Qed.

Lemma empty_allow_list_uploads_nothing_witness :
  let b := new_bot (empty_service []) in
  path_exists sample_host "d" = true /\
  upload_with_breaks sample_host "d" (Some "uploads") None (Some []) b =
  (inr tt, b, [Log INFO (MFound 0); Log INFO MNoFiles]).
Proof.
  cbv zeta.
  assert (H : path_exists sample_host "d" = true) by reflexivity.
  split; [exact H|].
  exact (empty_allow_list_uploads_nothing sample_host "d" (Some "uploads") None
           (new_bot (empty_service [])) H).
Defined.

(** ** Folders *)

(** X3. [create_drive_folder] never raises.  It returns [None] exactly when
    it logged an error; it makes no transfer and at most one create-folder
    call; and it either leaves the store as it was or adds, at its end, one
    folder of the given name under the given parent, whose identifier it
    returns. *)
Theorem create_drive_folder_outcome folder_name parent b :
  let r := create_drive_folder folder_name parent b in
  exists o,
    result r = inr o /\
    (o = None <-> quiet (trace r) = false) /\
    uploads (trace r) = [] /\
    (List.length (folder_creates (trace r)) <= 1)%nat /\
    (store (service (final r)) = store (service b) \/
     exists f,
       store (service (final r)) = (store (service b) ++ [f])%list /\
       rf_name f = folder_name /\ rf_parents f = [parent] /\
       rf_mimeType f = folder_mime /\ o = Some (rf_id f)).
Proof.
  cbv zeta. folder_cases b; eexists; (split; [reflexivity|]);
    cbn; rewrite ?tick_store;
    (split; [split; [auto; discriminate | auto; discriminate]|]);
    (split; [reflexivity|]); (split; [lia|]); auto.
  right. eexists. repeat split; reflexivity.
Qed.

(** X4. [create_drive_folder] is idempotent: once it has returned an
    identifier, a second call for the same name and parent whose lookup
    returns gives the same identifier, creates nothing and leaves the store
    as it is. *)
Theorem create_drive_folder_idempotent folder_name parent b id :
  let first := create_drive_folder folder_name parent b in
  result first = inr (Some id) ->
  faulty (final first) = false ->
  let second := create_drive_folder folder_name parent (final first) in
  result second = inr (Some id) /\
  folder_creates (trace second) = [] /\
  store (service (final second)) = store (service (final first)).
Proof.
  cbv zeta. rewrite (create_drive_folder_eq folder_name parent b). cbv zeta.
  destruct (faulty b); [cbn; discriminate|].
  destruct (filter (matches (folder_query folder_name parent)) (store (service b)))
    as [|found others] eqn:L.
  - destruct (faulty (tick b)); [cbn; discriminate|].
    unfold result, final. cbn [fst snd]. intros H F. inversion H; subst id. clear H.
    rewrite create_drive_folder_eq. cbv zeta. rewrite F.
    rewrite stored_store, !tick_store, filter_app, L. cbn [app filter].
    rewrite folder_matches. cbn. rewrite ?tick_store, ?stored_store, ?tick_store. auto.
  - unfold result, final. cbn [fst snd]. intros H F. inversion H; subst id. clear H.
    rewrite create_drive_folder_eq. cbv zeta. rewrite F, tick_store, L.
    cbn. rewrite !tick_store. auto.
Qed.

Lemma create_drive_folder_idempotent_witness :
  let b := new_bot (empty_service []) in
  let first := create_drive_folder "uploads" "root" b in
  let second := create_drive_folder "uploads" "root" (final first) in
  result first = inr (Some "id0") /\
  faulty (final first) = false /\
  result second = inr (Some "id0") /\
  folder_creates (trace second) = [] /\
  store (service (final second)) = store (service (final first)).
Proof.
  cbv zeta.
  assert (H1 : result (create_drive_folder "uploads" "root" (new_bot (empty_service [])))
               = inr (Some "id0")) by reflexivity.
  assert (H2 : faulty (final (create_drive_folder "uploads" "root"
                                (new_bot (empty_service [])))) = false) by reflexivity.
  split; [exact H1|]. split; [exact H2|].
  exact (create_drive_folder_idempotent "uploads" "root" (new_bot (empty_service []))
           "id0" H1 H2).
Defined.

Lemma get_folder_id_by_name_eq folder_name parent b :
  let lookup := Api (FilesList (folder_query folder_name parent)) in
  get_folder_id_by_name folder_name parent b =
  if faulty b then
    (inr None, tick b, [lookup; Log ERROR (MErrFindingFolder "HttpError")])
  else
    match filter (matches (folder_query folder_name parent)) (store (service b)) with
    | found :: _ =>
        (inr (Some (rf_id found)), tick b,
         [lookup; Log INFO (MFoundFolder folder_name (rf_id found))])
    | [] => (inr None, tick b, [lookup; Log INFO (MFolderNotFound folder_name)])
    end.
Proof.
  cbv zeta. unfold get_folder_id_by_name, try_except, bind. rewrite files_list_eq.
  destruct (faulty b); [reflexivity|].
  destruct (filter _ _); reflexivity.
Qed.

(** X5. [get_folder_id_by_name] only reads: it makes the one list call,
    never a create call, and leaves the store as it is.  It never raises,
    and it returns the identifier of the first folder of that name listed
    under the parent, or [None] when there is none or when the call
    raised. *)
Theorem get_folder_id_by_name_reads folder_name parent b :
  let r := get_folder_id_by_name folder_name parent b in
  let listed := filter (matches (folder_query folder_name parent)) (store (service b)) in
  store (service (final r)) = store (service b) /\
  api_calls (trace r) = [FilesList (folder_query folder_name parent)] /\
  result r = inr (if faulty b then None else option_map rf_id (hd_error listed)).
Proof.
  cbv zeta. rewrite get_folder_id_by_name_eq. cbv zeta.
  destruct (faulty b); [cbn; rewrite tick_store; auto|].
  destruct (filter _ _); cbn; rewrite tick_store; auto.
Qed.

(** X6. What [create_drive_folder] returns is what [get_folder_id_by_name]
    finds afterwards: once the former has returned an identifier, the
    latter, when its lookup returns, gives the same identifier for the same
    name and parent. *)
Theorem find_after_create folder_name parent b id :
  let first := create_drive_folder folder_name parent b in
  result first = inr (Some id) ->
  faulty (final first) = false ->
  result (get_folder_id_by_name folder_name parent (final first)) = inr (Some id).
Proof.
  cbv zeta. rewrite (create_drive_folder_eq folder_name parent b). cbv zeta.
  destruct (faulty b); [cbn; discriminate|].
  destruct (filter (matches (folder_query folder_name parent)) (store (service b)))
    as [|found others] eqn:L.
  - destruct (faulty (tick b)); [cbn; discriminate|].
    unfold result, final. cbn [fst snd]. intros H F. inversion H; subst id. clear H.
    rewrite get_folder_id_by_name_eq. cbv zeta. rewrite F.
    rewrite stored_store, !tick_store, filter_app, L. cbn [app filter].
    rewrite folder_matches. reflexivity.
  - unfold result, final. cbn [fst snd]. intros H F. inversion H; subst id. clear H.
    rewrite get_folder_id_by_name_eq. cbv zeta. rewrite F, tick_store, L. reflexivity.
Qed.

Lemma find_after_create_witness :
  let b := new_bot (empty_service []) in
  let first := create_drive_folder "uploads" "root" b in
  result first = inr (Some "id0") /\
  faulty (final first) = false /\
  result (get_folder_id_by_name "uploads" "root" (final first)) = inr (Some "id0").
Proof.
  cbv zeta.
  assert (H1 : result (create_drive_folder "uploads" "root" (new_bot (empty_service [])))
               = inr (Some "id0")) by reflexivity.
  assert (H2 : faulty (final (create_drive_folder "uploads" "root"
                                (new_bot (empty_service [])))) = false) by reflexivity.
  split; [exact H1|]. split; [exact H2|].
  exact (find_after_create "uploads" "root" (new_bot (empty_service [])) "id0" H1 H2).
Defined.

Lemma print_folders_eq folders b :
  print_folders folders b =
  (inr tt, b,
   map (fun f => Print ("Name: " ++ rf_name f ++ tab ++ "ID: " ++ rf_id f)) folders).
Proof.
  induction folders as [|f rest IH]; [reflexivity|].
  cbn [print_folders map]. unfold bind, emit at 1. rewrite IH. reflexivity.
Qed.

Lemma list_folders_eq parent b :
  let q := {| q_name := None; q_parents := parent; q_mimeType := Some folder_mime |} in
  list_folders parent b =
  if faulty b then
    (inr None, tick b, [Api (FilesList q); Log ERROR (MErrListingFolders "HttpError")])
  else
    match filter (matches q) (store (service b)) with
    | [] => (inr None, tick b, [Api (FilesList q); Print "No folders found."])
    | f :: rest =>
        (inr (Some (f :: rest)), tick b,
         (Api (FilesList q) :: Print (newline ++ "Available folders:")%string
          :: Print (Str.repeat "-" 50)
          :: map (fun f => Print ("Name: " ++ rf_name f ++ tab ++ "ID: " ++ rf_id f)%string)
                 (f :: rest)
          ++ [Print (Str.repeat "-" 50)])%list)
    end.
Proof.
  cbv zeta. unfold list_folders, try_except, bind at 1. rewrite files_list_eq.
  destruct (faulty b); [reflexivity|].
  destruct (filter _ (store (service b))) as [|f rest]; [reflexivity|].
  unfold bind, emit. rewrite print_folders_eq. cbn [app]. unfold ret.
  cbn [app]. rewrite ?app_nil_r. reflexivity.
Qed.

(** X7. [list_folders] only reads: one list call, no create call, the store
    untouched, no exception.  When the call returns it prints one line per
    folder listed under the parent, in listing order, between a header and
    two rules, and returns the folders; with no folder it prints a single
    line and returns [None], as it does (printing nothing) when the call
    raised. *)
Theorem list_folders_reads parent b :
  let r := list_folders parent b in
  let q := {| q_name := None; q_parents := parent; q_mimeType := Some folder_mime |} in
  let folders := filter (matches q) (store (service b)) in
  store (service (final r)) = store (service b) /\
  api_calls (trace r) = [FilesList q] /\
  result r =
    inr (if faulty b then None
         else match folders with [] => None | _ :: _ => Some folders end) /\
  prints (trace r) =
    (if faulty b then []
     else match folders with
          | [] => ["No folders found."]
          | _ :: _ =>
              ((newline ++ "Available folders:")%string :: Str.repeat "-" 50
               :: map (fun f => ("Name: " ++ rf_name f ++ tab ++ "ID: " ++ rf_id f)%string)
                      folders
               ++ [Str.repeat "-" 50])%list
          end).
Proof.
  cbv zeta. rewrite list_folders_eq. cbv zeta.
  destruct (faulty b); [cbn; rewrite tick_store; auto|].
  destruct (filter _ (store (service b))) as [|f rest];
    [cbn; rewrite tick_store; auto|].
  unfold final, trace, result, api_calls, prints. cbn [fst snd].
  rewrite tick_store. cbn [flat_map api_of print_of app map].
  rewrite !flat_map_app. cbn [flat_map api_of print_of app].
  assert (A : forall l : list RemoteFile,
            flat_map api_of
              (map (fun f => Print ("Name: " ++ rf_name f ++ tab ++ "ID: " ++ rf_id f)%string) l)
            = []).
  { induction l as [|g l IH]; [reflexivity | exact IH]. }
  assert (B : forall l : list RemoteFile,
            flat_map print_of
              (map (fun f => Print ("Name: " ++ rf_name f ++ tab ++ "ID: " ++ rf_id f)%string) l)
            = map (fun f => ("Name: " ++ rf_name f ++ tab ++ "ID: " ++ rf_id f)%string) l).
  { induction l as [|g l IH]; [reflexivity|]. cbn. f_equal. exact IH. }
  rewrite A, B. repeat split; reflexivity.
Qed.

(** ** One file *)

(** X8. [upload_file] never raises and has two outcomes.  It returns [True],
    has logged no error, and a file with the base name of the path is then
    listed under the folder; or it returns [False], has logged one error
    that names the path, and the store is as it was.  It makes at most two
    calls on the service, of which at most one transfer, and creates no
    folder. *)
Theorem upload_file_outcome host file_path folder b :
  let r := upload_file host file_path folder b in
  ((result r = inr true /\ quiet (trace r) = true /\
    present (Str.basename file_path) folder (service (final r)) = true) \/
   (result r = inr false /\ failed_paths (trace r) = [file_path] /\
    store (service (final r)) = store (service b))) /\
  (List.length (api_calls (trace r)) <= 2)%nat /\
  (List.length (uploads (trace r)) <= 1)%nat /\
  folder_creates (trace r) = [].
Proof.
  cbv zeta. upload_cases b; cbn [result final trace fst snd].
  - split; [right|cbn; repeat split; lia]. rewrite tick_store. cbn. auto.
  - split; [left|cbn; repeat split; lia].
    split; [reflexivity|]. split; [reflexivity|].
    eapply present_grows; [|exact P]. rewrite tick_store, app_nil_r. reflexivity.
  - split; [right|cbn; repeat split; lia]. rewrite !tick_store. cbn. auto.
  - split; [left|cbn; repeat split; lia].
    split; [reflexivity|]. split; [reflexivity|].
    apply present_uploaded.
Qed.

(** ** The loop and its counters *)

Lemma present_names name folder sv :
  present name folder sv = true <-> In name (names_under folder (store sv)).
Proof.
  unfold present, names_under. generalize (store sv). intros l.
  induction l as [|f l IH]; cbn [existsb filter map].
  - split; [discriminate | intros []].
  - unfold matches at 1. cbn [q_name q_parents q_mimeType].
    destruct (Str.mem folder (rf_parents f)) eqn:M; cbn [map In].
    + rewrite !andb_true_r, orb_true_iff, IH, String.eqb_eq. tauto.
    + rewrite andb_false_r. cbn [andb orb]. exact IH.
Qed.

Lemma upload_file_names host file_path folder b :
  NoDup (names_under folder (store (service b))) ->
  NoDup (names_under folder
           (store (service (final (upload_file host file_path folder b))))).
Proof.
  intros H. upload_cases b; cbn [final fst snd]; rewrite ?stored_store, ?tick_store;
    try exact H.
  unfold names_under. rewrite filter_app, map_app. cbn [filter created upload_body
    rf_parents rf_name b_parents b_name].
  unfold Str.mem at 2. cbn [existsb]. rewrite String.eqb_refl. cbn [orb map].
  apply NoDup_app; [exact H | repeat constructor; intros [] | ].
  intros x Hx [<-|[]].
  change (In (Str.basename file_path) (names_under folder (store (service b)))) in Hx.
  apply present_names in Hx. congruence.
Qed.

(** X9. The loop keeps the names in the target folder distinct: started on
    a store where no two files listed under the target share a name, it
    ends, however the remote calls behave, on a store with the same
    property. *)
Theorem upload_loop_keeps_names_distinct host target total files :
  forall i s f b,
    NoDup (names_under target (store (service b))) ->
    NoDup (names_under target
             (store (service (final (upload_loop host target total i files s f b))))).
Proof.
  induction files as [|p rest IH]; intros i s f b H; [exact H|].
  rewrite upload_loop_cons.
  pose proof (upload_file_names host p target b H) as H1.
  destruct (upload_file host p target b) as [[[e|ok] b1] t1];
    unfold final in *; cbn [fst snd] in *; [exact H1|]. cbv zeta.
  destruct (counted_fields ok b1) as (_ & _ & Esv).
  rewrite <- Esv in H1.
  specialize (IH (i + 1) (if ok then s + 1 else s) (if ok then f else f + 1)
                 (counted ok b1) H1).
  destruct (batch_size (counted ok b1) =? 0); [exact H1|].
  destruct (pause_due (counted ok b1) i total);
    [destruct (break_duration (counted ok b1) <? 0); [exact H1|]|];
    destruct (upload_loop _ _ _ _ _ _ _ _) as [[r3 b3] t3]; exact IH.
Qed.

Lemma upload_loop_keeps_names_distinct_witness :
  let b := new_bot (one_file_service [false; true]) in
  NoDup (names_under "root" (store (service b))) /\
  NoDup (names_under "root"
           (store (service (final (upload_loop sample_host "root" 3 0
                                     ["d/a.txt"; "d/sub/a.txt"; "d/b.JPG"] 0 0 b))))).
Proof.
  cbv zeta.
  assert (H : NoDup (names_under "root"
                       (store (service (new_bot (one_file_service [false; true]))))))
    by (repeat constructor; intros []).
  split; [exact H|].
  exact (upload_loop_keeps_names_distinct sample_host "root" 3
           ["d/a.txt"; "d/sub/a.txt"; "d/b.JPG"] 0 0 0 _ H).
Defined.

(** What the loop does to the counters, whether it ends or raises: the
    running counter never decreases and grows by at most one per file; and
    when the loop ends, the two local counters have grown by the number of
    files, the first of them by what the running counter grew. *)
Lemma upload_loop_counters host target total files :
  forall i s f b,
    let r := upload_loop host target total i files s f b in
    batch_size (final r) = batch_size b /\
    break_duration (final r) = break_duration b /\
    uploaded_count b <= uploaded_count (final r) <=
      uploaded_count b + Z.of_nat (List.length files) /\
    forall s' f', result r = inr (s', f') ->
      s' + f' = s + f + Z.of_nat (List.length files) /\
      uploaded_count (final r) = uploaded_count b + (s' - s) /\
      s <= s' /\ f <= f'.
Proof.
  induction files as [|p rest IH]; intros i s f b.
  - cbn. split; [reflexivity|]. split; [reflexivity|]. split; [lia|].
    intros s' f' E. unfold result in E. cbn in E. inversion E; subst. lia.
  - cbv zeta. rewrite upload_loop_cons.
    upload_facts host p target b. cbv zeta.
    destruct (counted_fields x b0) as (Eb & Ed & _).
    assert (Ec : uploaded_count (counted x b0) = uploaded_count b + (if x then 1 else 0))
      by (destruct x; cbn; lia).
    assert (Eb' : batch_size (counted x b0) = batch_size b) by congruence.
    assert (Ed' : break_duration (counted x b0) = break_duration b) by congruence.
    clear Eb Ed.
    specialize (IH (i + 1) (if x then s + 1 else s) (if x then f else f + 1)
                   (counted x b0)). cbv zeta in IH.
    destruct IH as (IHb & IHd & IHc & IHr).
    rewrite Eb' in IHb. rewrite Ed' in IHd. rewrite Ec in IHc, IHr.
    assert (Hx : 0 <= (if x then 1 else 0) <= 1) by (destruct x; lia).
    destruct (batch_size (counted x b0) =? 0);
      [unfold result, final; cbn [fst snd]; rewrite Ec, Eb', Ed';
       repeat split; cbn [List.length]; try lia; congruence|].
    destruct (pause_due (counted x b0) i total);
      [destruct (break_duration (counted x b0) <? 0);
       [unfold result, final; cbn [fst snd]; rewrite Ec, Eb', Ed';
        repeat split; cbn [List.length]; try lia; congruence|]|];
      destruct (upload_loop _ _ _ _ _ _ _ _) as [[r3 b3] t3];
      unfold result, final in *; cbn [fst snd List.length] in *;
      (split; [exact IHb|]); (split; [exact IHd|]); (split; [lia|]);
      intros s' f' E; specialize (IHr s' f' E); destruct x; lia.
Qed.

(** The sleeps of the loop are of the configured length, and there is none
    after the last file. *)
Lemma upload_loop_sleeps host target total files :
  forall i s f b,
    total = i + Z.of_nat (List.length files) ->
    let r := upload_loop host target total i files s f b in
    Forall (eq (break_duration b)) (sleeps (trace r)) /\
    (List.length (sleeps (trace r)) <= List.length files - 1)%nat.
Proof.
  induction files as [|p rest IH]; intros i s f b Ht.
  - cbn. split; [constructor | lia].
  - cbv zeta. rewrite upload_loop_cons.
    upload_facts host p target b. cbv zeta.
    destruct (counted_fields x b0) as (Eb & Ed & _).
    assert (Ht' : total = i + 1 + Z.of_nat (List.length rest))
      by (cbn [List.length] in Ht; lia).
    specialize (IH (i + 1) (if x then s + 1 else s) (if x then f else f + 1)
                   (counted x b0) Ht'). cbv zeta in IH.
    destruct IH as (IHf & IHl). rewrite Ed, Hbreak in IHf.
    destruct (batch_size (counted x b0) =? 0);
      [unfold trace; cbn [snd]; rewrite Hsl; split; [constructor | cbn; lia]|].
    unfold pause_due.
    destruct (i <? total - 1) eqn:Hi.
    + apply Z.ltb_lt in Hi.
      assert (Hrest : (1 <= List.length rest)%nat) by lia.
      destruct (uploaded_count (counted x b0) mod batch_size (counted x b0) =? 0);
        cbn [andb];
        [destruct (break_duration (counted x b0) <? 0);
         [unfold trace; cbn [snd]; rewrite sleeps_app, Hsl; cbn; split; [constructor | lia]|]|];
        destruct (upload_loop _ _ _ _ _ _ _ _) as [[r3 b3] t3];
        unfold trace in *; cbn [snd List.length] in *;
        rewrite !sleeps_app, Hsl; cbn [app];
        [change (sleeps (pause_events (counted x b0)))
           with [break_duration (counted x b0)]; cbn [app List.length];
         rewrite Ed, Hbreak; split; [constructor; auto | lia]
        | split; [exact IHf | lia]].
    + rewrite andb_false_r.
      apply Z.ltb_ge in Hi.
      assert (Hrest : rest = []) by (destruct rest; [reflexivity | cbn in Ht'; lia]).
      subst rest. cbn [upload_loop]. unfold ret. cbn [snd fst].
      rewrite app_nil_r, Hsl. split; [constructor | cbn; lia].
Qed.

(** ** The whole run *)

Lemma reported_total_app t1 t2 :
  reported_total (t1 ++ t2) = (reported_total t1 ++ reported_total t2)%list.
Proof. apply flat_map_app. Qed.

Lemma reported_successful_app t1 t2 :
  reported_successful (t1 ++ t2) =
  (reported_successful t1 ++ reported_successful t2)%list.
Proof. apply flat_map_app. Qed.

(** Neither the resolution of the destination nor the loop writes a line of
    the summary. *)
Lemma destination_no_summary name id b :
  reported_total (trace (destination name id b)) = [] /\
  reported_successful (trace (destination name id b)) = [].
Proof.
  rewrite destination_eq.
  destruct (truthy id); [auto|]. destruct (truthy name); [|auto].
  folder_cases b; cbn [truthy];
    try match goal with
      | |- context [Str.nonempty ?x] => destruct (Str.nonempty x)
      end; auto.
Qed.

Lemma upload_loop_no_summary host target total files :
  forall i s f b,
    reported_total (trace (upload_loop host target total i files s f b)) = [] /\
    reported_successful (trace (upload_loop host target total i files s f b)) = [].
Proof.
  induction files as [|p rest IH]; intros i s f b; [auto|].
  rewrite upload_loop_cons.
  assert (H1 : reported_total (trace (upload_file host p target b)) = [] /\
               reported_successful (trace (upload_file host p target b)) = [])
    by (upload_cases b; auto).
  destruct (upload_file host p target b) as [[[e|ok] b1] t1];
    unfold trace in *; cbn [snd] in *; [exact H1|]. cbv zeta.
  destruct H1 as [H1 H2].
  specialize (IH (i + 1) (if ok then s + 1 else s) (if ok then f else f + 1)
                 (counted ok b1)).
  destruct (batch_size (counted ok b1) =? 0); [auto|].
  destruct (pause_due (counted ok b1) i total);
    [destruct (break_duration (counted ok b1) <? 0);
     [cbn [snd]; rewrite reported_total_app, reported_successful_app, H1, H2; auto|]|];
    destruct (upload_loop _ _ _ _ _ _ _ _) as [[r3 b3] t3]; cbn [snd] in *;
    destruct IH as [IH1 IH2];
    rewrite !reported_total_app, !reported_successful_app, H1, H2, IH1, IH2; auto.
Qed.

(** The stages of a run, with the trace and the final bot of each way it
    can end. *)
Lemma upload_with_breaks_stages host local name id exts b :
  let r := upload_with_breaks host local name id exts b in
  let files := scan exts (rglob host local) in
  let n := Z.of_nat (List.length files) in
  (path_exists host local = false /\
   r = (inr tt, b,
        [Log ERROR (MErrOccurred ("Local folder '" ++ local ++ "' not found!"))])) \/
  (path_exists host local = true /\ files = [] /\
   r = (inr tt, b, [Log INFO (MFound n); Log INFO MNoFiles])) \/
  (path_exists host local = true /\ files <> [] /\
   exists o b1 t1,
     destination name id b = (inr o, b1, t1) /\
     match o with
     | None => r = (inr tt, b1, ([Log INFO (MFound n)] ++ t1)%list)
     | Some target =>
         match upload_loop host target n 0 files 0 0 b1 with
         | (inl e, b2, t2) =>
             r = (inr tt, b2,
                  ([Log INFO (MFound n)] ++ t1 ++ [Log INFO (MStarting n)] ++ t2 ++
                   [Log ERROR (MErrOccurred (exc_str e))])%list)
         | (inr (s, f), b2, t2) =>
             r = (inr tt, b2,
                  ([Log INFO (MFound n)] ++ t1 ++ [Log INFO (MStarting n)] ++ t2 ++
                   summary_events n s f)%list)
         end
     end).
Proof.
  cbv zeta. rewrite upload_with_breaks_eq. cbv zeta.
  destruct (path_exists host local); cbn [negb]; [|left; auto]. right.
  destruct (scan exts (rglob host local)) as [|p rest] eqn:Efiles; [left; auto|].
  right. split; [reflexivity|]. split; [discriminate|].
  destruct (destination_spec name id b) as (o & b1 & t1 & E & _).
  exists o, b1, t1. split; [exact E|]. rewrite E.
  destruct o as [target|]; [|reflexivity].
  rewrite upload_all_eq. cbv zeta.
  destruct (upload_loop _ _ _ _ _ _ _ _) as [[[e|[s' f']] b2] t2];
    cbn [app]; rewrite <- ?app_assoc; reflexivity.
Qed.

Ltac stages host local name id exts b :=
  let Hp := fresh "Hp" in let Hf := fresh "Hf" in let Er := fresh "Er" in
  let o := fresh "o" in let b1 := fresh "b1" in let t1 := fresh "t1" in
  let Hd := fresh "Hd" in
  destruct (upload_with_breaks_stages host local name id exts b)
    as [(Hp & Er)|[(Hp & Hf & Er)|(Hp & Hf & o & b1 & t1 & Hd & Er)]].

(** X10. Whenever a run with sound pacing fields has attempted a file, it
    ends with a summary whose figures add up: the total is the number of
    discovered files, successful and failed uploads are non-negative and
    sum to the total, and the running counter of the bot has grown by the
    number of successful uploads. *)
Theorem summary_adds_up host local name id exts b :
  batch_size b <> 0 ->
  0 <= break_duration b ->
  let r := upload_with_breaks host local name id exts b in
  let n := Z.of_nat (List.length (scan exts (rglob host local))) in
  attempts (trace r) <> [] ->
  exists s f,
    reported_total (trace r) = [n] /\
    reported_successful (trace r) = [s] /\
    reported_failed (trace r) = [f] /\
    s + f = n /\ 0 <= s /\ 0 <= f /\
    uploaded_count (final r) = uploaded_count b + s.
Proof.
  intros Hb Hbr. cbv zeta.
  stages host local name id exts b; cbv zeta in Er; try (rewrite Er; cbn; congruence).
  destruct (destination_spec name id b)
    as (o' & b1' & t1' & E & (Ec & Eb & Ed) & (A1 & _ & _ & R1 & _) & _ & _).
  rewrite Hd in E. inversion E; subst o' b1' t1'. clear E.
  destruct (destination_no_summary name id b) as [T1 S1].
  rewrite Hd in T1, S1. unfold trace in T1, S1. cbn [snd] in T1, S1.
  destruct o as [target|].
  2:{ rewrite Er. unfold trace. cbn [snd]. rewrite attempts_app, A1. cbn. congruence. }
  set (n := Z.of_nat (List.length (scan exts (rglob host local)))) in *.
  destruct (upload_loop_complete host target n (scan exts (rglob host local)) 0 0 0 b1)
    as (s' & f' & b2 & t2 & El & _ & _ & _ & R2 & _); [congruence | lia |].
  pose proof (upload_loop_counters host target n (scan exts (rglob host local)) 0 0 0 b1)
    as (_ & _ & _ & Hc).
  pose proof (upload_loop_no_summary host target n (scan exts (rglob host local)) 0 0 0 b1)
    as [T2 S2].
  rewrite El in Er, Hc, T2, S2.
  unfold result, final, trace in Hc, T2, S2. cbn [fst snd] in Hc, T2, S2.
  destruct (Hc s' f' eq_refl) as (Hsum & Hcount & Hs & Hf').
  intros _. exists s', f'. rewrite Er. unfold trace, final. cbn [fst snd].
  rewrite !reported_total_app, !reported_successful_app, !reported_failed_app.
  rewrite T1, S1, R1, T2, S2, R2. cbn.
  fold n. repeat split; try lia.
Qed.

Lemma summary_adds_up_witness :
  let b := new_bot (empty_service [true]) in
  let r := upload_with_breaks sample_host "d" None None None b in
  batch_size b <> 0 /\ 0 <= break_duration b /\ attempts (trace r) <> [] /\
  exists s f,
    reported_total (trace r) = [3] /\
    reported_successful (trace r) = [s] /\
    reported_failed (trace r) = [f] /\
    s + f = 3 /\ 0 <= s /\ 0 <= f /\
    uploaded_count (final r) = uploaded_count b + s.
Proof.
  cbv zeta.
  assert (H1 : batch_size (new_bot (empty_service [true])) <> 0) by (cbn; lia).
  assert (H2 : 0 <= break_duration (new_bot (empty_service [true]))) by (cbn; lia).
  assert (H3 : attempts (trace (upload_with_breaks sample_host "d" None None None
                                  (new_bot (empty_service [true])))) <> [])
    by (vm_compute; discriminate).
  split; [exact H1|]. split; [exact H2|]. split; [exact H3|].
  exact (summary_adds_up sample_host "d" None None None
           (new_bot (empty_service [true])) H1 H2 H3).
Defined.

(** X11. The running counter of the bot is never reset and never runs
    ahead: whatever happens during a run, at its end the counter is at
    least what it was and at most that plus the number of discovered
    files; the two pacing fields are what they were. *)
Theorem uploaded_count_only_grows host local name id exts b :
  let r := upload_with_breaks host local name id exts b in
  uploaded_count b <= uploaded_count (final r) <=
    uploaded_count b + Z.of_nat (List.length (scan exts (rglob host local))) /\
  batch_size (final r) = batch_size b /\
  break_duration (final r) = break_duration b.
Proof.
  cbv zeta.
  stages host local name id exts b; cbv zeta in Er;
    try (rewrite Er; unfold final; cbn [fst snd]; repeat split; lia).
  destruct (destination_spec name id b)
    as (o' & b1' & t1' & E & (Ec & Eb & Ed) & _).
  rewrite Hd in E. inversion E; subst o' b1' t1'. clear E.
  destruct o as [target|].
  2:{ rewrite Er. unfold final. cbn [fst snd]. repeat split; try lia; congruence. }
  pose proof (upload_loop_counters host target
                (Z.of_nat (List.length (scan exts (rglob host local))))
                (scan exts (rglob host local)) 0 0 0 b1)
    as (Hb2 & Hd2 & Hc & _).
  destruct (upload_loop _ _ _ _ _ _ _ _) as [[[e|[s' f']] b2] t2];
    rewrite Er; unfold final in *; cbn [fst snd] in *;
    repeat split; try lia; congruence.
Qed.

(** X12. Every sleep of a run lasts the configured break, and a run over
    [n] discovered files sleeps at most [n - 1] times: never after the last
    file, never while the destination is resolved. *)
Theorem pauses_are_bounded host local name id exts b :
  let r := upload_with_breaks host local name id exts b in
  Forall (eq (break_duration b)) (sleeps (trace r)) /\
  (List.length (sleeps (trace r)) <=
   List.length (scan exts (rglob host local)) - 1)%nat.
Proof.
  cbv zeta.
  stages host local name id exts b; cbv zeta in Er;
    try (rewrite Er; cbn; split; [constructor | lia]).
  destruct (destination_spec name id b)
    as (o' & b1' & t1' & E & (_ & _ & Ed) & (_ & _ & _ & _ & S1) & _).
  rewrite Hd in E. inversion E; subst o' b1' t1'. clear E.
  destruct o as [target|].
  2:{ rewrite Er. unfold trace. cbn [snd]. rewrite sleeps_app, S1. cbn.
      split; [constructor | lia]. }
  pose proof (upload_loop_sleeps host target
                (Z.of_nat (List.length (scan exts (rglob host local))))
                (scan exts (rglob host local)) 0 0 0 b1 eq_refl) as (HF & HL).
  rewrite Ed in HF.
  destruct (upload_loop _ _ _ _ _ _ _ _) as [[[e|[s' f']] b2] t2];
    rewrite Er; unfold trace in *; cbn [fst snd] in *;
    rewrite !sleeps_app, S1; cbn; rewrite app_nil_r; auto.
Qed.

(** The method always returns, and the store only grows at its end. *)
Lemma upload_with_breaks_grows host local name id exts b :
  let r := upload_with_breaks host local name id exts b in
  result r = inr tt /\
  exists ext, store (service (final r)) = (store (service b) ++ ext)%list.
Proof.
  cbv zeta.
  stages host local name id exts b; cbv zeta in Er;
    try (rewrite Er; split; [reflexivity|]; exists []; cbn; rewrite app_nil_r;
         reflexivity).
  destruct (destination_spec name id b)
    as (o' & b1' & t1' & E & _ & _ & (ext1 & S1) & _).
  rewrite Hd in E. inversion E; subst o' b1' t1'. clear E.
  destruct o as [target|].
  2:{ rewrite Er. split; [reflexivity|]. exists ext1. exact S1. }
  pose proof (upload_loop_store host target
                (Z.of_nat (List.length (scan exts (rglob host local))))
                (scan exts (rglob host local)) 0 0 0 b1) as (ext2 & S2).
  destruct (upload_loop _ _ _ _ _ _ _ _) as [[[e|[s' f']] b2] t2];
    rewrite Er; unfold final in *; cbn [fst snd] in *;
    (split; [reflexivity|]); exists (ext1 ++ ext2)%list;
    rewrite S2, S1, app_assoc; reflexivity.
Qed.

(** X13. [upload_with_breaks] never raises an exception of class
    [Exception], and it never removes, reorders or alters what the remote
    store held: the store at the end of a run is the store at its start
    with new resources after it. *)
Theorem run_returns_and_store_grows host local name id exts b :
  let r := upload_with_breaks host local name id exts b in
  result r = inr tt /\
  exists ext, store (service (final r)) = (store (service b) ++ ext)%list.
Proof. exact (upload_with_breaks_grows host local name id exts b). Qed.


Lemma div_succ (i B : Z) :
  0 < B ->
  ((i + 1) mod B = 0 -> (i + 1) / B = i / B + 1) /\
  ((i + 1) mod B <> 0 -> (i + 1) / B = i / B).
Proof.
  intros HB.
  pose proof (Z.div_mod (i + 1) B ltac:(lia)) as E1.
  pose proof (Z.div_mod i B ltac:(lia)) as E0.
  pose proof (Z.mod_pos_bound (i + 1) B HB) as R1.
  pose proof (Z.mod_pos_bound i B HB) as R0.
  split; intros H; nia.
Qed.

Lemma quiet_no_failure t : quiet t = true -> failed_paths t = [].
Proof.
  unfold quiet, failed_paths. induction t as [|e t IH]; [reflexivity|].
  cbn [forallb flat_map]. intros H. apply andb_true_iff in H as [He Ht].
  rewrite (IH Ht), app_nil_r.
  destruct e as [c|l m|line|d|]; try reflexivity.
  destruct l; [reflexivity | discriminate].
Qed.

Lemma Forall_eq_repeat (a : Z) l : Forall (eq a) l -> l = repeat a (List.length l).
Proof.
  induction 1 as [|x l Hx _ IH]; [reflexivity|]. cbn. subst x. f_equal. exact IH.
Qed.

(** The pauses of a loop in which no attempt fails, when the running counter
    equals the index of the next file. *)
Lemma upload_loop_pace host target total files :
  forall i s f b,
    0 < batch_size b ->
    0 <= i ->
    uploaded_count b = i ->
    total = i + Z.of_nat (List.length files) ->
    let r := upload_loop host target total i files s f b in
    (exists c, result r = inr c) ->
    failed_paths (trace r) = [] ->
    List.length (sleeps (trace r)) =
    Z.to_nat ((total - 1) / batch_size b - i / batch_size b).
Proof.
  induction files as [|p rest IH]; intros i s f b HB Hi Hc Ht.
  - cbn [List.length] in Ht. cbv zeta. intros _ _. cbn.
    assert (H : (total - 1) / batch_size b <= i / batch_size b)
      by (apply Z.div_le_mono; lia).
    lia.
  - cbv zeta. rewrite upload_loop_cons.
    upload_facts host p target b. cbv zeta.
    destruct (counted_fields x b0) as (Eb & Ed & _).
    assert (Eb' : batch_size (counted x b0) = batch_size b) by congruence.
    assert (Ht' : total = i + 1 + Z.of_nat (List.length rest))
      by (cbn [List.length] in Ht; lia).
    rewrite Eb'.
    destruct (batch_size b =? 0) eqn:B0; [apply Z.eqb_eq in B0; lia|].
    unfold pause_due. rewrite Eb'.
    assert (Hfirst : forall t', failed_paths (t ++ t') = [] -> x = true).
    { intros t' H. rewrite failed_paths_app in H.
      destruct Hfail as [(Ex & _)|(_ & Ef & _)]; [congruence|].
      rewrite Ef in H. discriminate. }
    assert (Hstep : x = true -> uploaded_count (counted x b0) = i + 1)
      by (intros ->; cbn; lia).
    destruct (div_succ i (batch_size b) HB) as [D1 D2].
    destruct (i <? total - 1) eqn:Hlt.
    + apply Z.ltb_lt in Hlt.
      assert (Hle : (i + 1) / batch_size b <= (total - 1) / batch_size b)
        by (apply Z.div_le_mono; lia).
      specialize (IH (i + 1) (if x then s + 1 else s) (if x then f else f + 1)
                     (counted x b0)).
      rewrite Eb' in IH. cbv zeta in IH.
      destruct (uploaded_count (counted x b0) mod batch_size b =? 0) eqn:M;
        cbn [andb];
        [destruct (break_duration (counted x b0) <? 0);
         [intros [c Hres]; discriminate Hres|]|];
        destruct (upload_loop _ _ _ _ _ _ _ _) as [[r3 b3] t3];
        unfold result, trace in *; cbn [fst snd] in *;
        intros Hres Hq;
        pose proof (Hfirst _ Hq) as Hx; specialize (Hstep Hx);
        rewrite Hstep in M;
        rewrite !failed_paths_app in Hq;
        repeat (apply app_eq_nil in Hq as [? Hq]);
        specialize (IH HB ltac:(lia) Hstep Ht' Hres Hq);
        rewrite !sleeps_app, Hsl, ?sleeps_app; cbn [app List.length];
        rewrite ?length_app; cbn [List.length sleeps flat_map pause_events sleep_of app];
        rewrite IH.
      * apply Z.eqb_eq in M. rewrite (D1 M) in *. lia.
      * apply Z.eqb_neq in M. rewrite (D2 M) in *. lia.
    + apply Z.ltb_ge in Hlt. rewrite andb_false_r.
      assert (Hrest : rest = []) by (destruct rest; [reflexivity | cbn in Ht'; lia]).
      subst rest. cbn [upload_loop]. unfold ret, trace. cbn [snd fst].
      intros _ _. rewrite app_nil_r, Hsl. cbn [List.length] in *.
      replace (total - 1) with i by lia. rewrite Z.sub_diag. reflexivity.
Qed.

(** X14. The pacing of an error-free run.  When the bot starts with its
    counter at zero and a positive batch size, and the run logs no error,
    it sleeps exactly [(n - 1) / batch_size] times (integer division, [n]
    the number of discovered files), each time for the configured break:
    once after each full batch that is followed by another file. *)
Theorem error_free_run_pacing host local name id exts b :
  0 < batch_size b ->
  uploaded_count b = 0 ->
  let r := upload_with_breaks host local name id exts b in
  let n := Z.of_nat (List.length (scan exts (rglob host local))) in
  quiet (trace r) = true ->
  sleeps (trace r) = repeat (break_duration b) (Z.to_nat ((n - 1) / batch_size b)).
Proof.
  intros HB Hc. cbv zeta.
  assert (Hneg : forall m, m <= 0 -> Z.to_nat ((m - 1) / batch_size b) = 0%nat).
  { intros m Hm.
    assert ((m - 1) / batch_size b < 0) by (apply Z.div_lt_upper_bound; lia). lia. }
  stages host local name id exts b; cbv zeta in Er.
  - rewrite Er. cbn. discriminate.
  - rewrite Er, Hf. intros _. cbn [List.length Z.of_nat].
    rewrite (Hneg 0 ltac:(lia)). reflexivity.
  - destruct (destination_spec name id b)
      as (o' & b1' & t1' & E & (Ec & Eb & Ed) & (_ & _ & _ & _ & S1) & _ & Hnone).
    rewrite Hd in E. inversion E; subst o' b1' t1'. clear E.
    destruct o as [target|].
    2:{ rewrite Er. unfold trace. cbn [snd]. rewrite quiet_app.
        unfold quiet at 2. rewrite (Hnone eq_refl), andb_false_r. discriminate. }
    set (files := scan exts (rglob host local)) in *.
    pose proof (upload_loop_pace host target (Z.of_nat (List.length files)) files
                  0 0 0 b1) as Hpace.
    pose proof (upload_loop_sleeps host target (Z.of_nat (List.length files)) files
                  0 0 0 b1 eq_refl) as (HF & _).
    cbv zeta in Hpace. rewrite Eb, Ed in *.
    destruct (upload_loop _ _ _ _ _ _ _ _) as [[[e|[s' f']] b2] t2];
      rewrite Er; unfold trace, result in *; cbn [fst snd] in *;
      rewrite !quiet_app; cbn [quiet forallb is_error negb andb];
      rewrite ?andb_false_r; intros Hq; try discriminate.
    apply andb_true_iff in Hq as [_ Hq]. rewrite andb_true_r in Hq.
    rewrite !sleeps_app, S1. cbn [sleeps flat_map sleep_of app summary_events].
    rewrite app_nil_r.
    rewrite (Forall_eq_repeat _ _ HF). f_equal.
    rewrite Hpace; [|lia|lia|congruence|lia|eauto|apply quiet_no_failure; exact Hq].
    rewrite Z.div_0_l by lia. f_equal. lia.
Qed.

Lemma error_free_run_pacing_witness :
  let b := {| service := empty_service []; uploaded_count := 0; batch_size := 1;
              break_duration := 5 |} in
  let r := upload_with_breaks sample_host "d" None None None b in
  0 < batch_size b /\ uploaded_count b = 0 /\ quiet (trace r) = true /\
  sleeps (trace r) = [5; 5].
Proof.
  cbv zeta.
  split; [reflexivity|]. split; [reflexivity|]. split; [reflexivity|].
  exact (error_free_run_pacing sample_host "d" None None None
           {| service := empty_service []; uploaded_count := 0; batch_size := 1;
              break_duration := 5 |} eq_refl eq_refl eq_refl).
Defined.

(** The text of X14 on a larger input: twenty-one files, batch size ten. *)
Example two_pauses_for_twenty_one_files :
  let host :=
    {| path_exists := fun _ => true;
       rglob := fun _ => map (fun k => ("d/f" ++ Str.of_nat k, true)) (seq 0 21);
       guess_type := fun _ => (None, None);
       authorized_user_file := fun _ => no_token;
       oauth_refresh := None; oauth_flow := None |} in
  sleeps (trace (upload_with_breaks host "d" None None None (new_bot (empty_service []))))
  = [180; 180].
Proof. vm_compute. reflexivity. Qed.

Lemma no_api_no_calls t :
  api_calls t = [] -> attempts t = [] /\ uploads t = [] /\ folder_creates t = [].
Proof.
  induction t as [|e t IH]; [auto|]. unfold api_calls. cbn [flat_map].
  destruct e; cbn; try discriminate; exact IH.
Qed.

(** X15. A batch size of zero stops the run at the first file: the test of
    line 224 raises on the modulo once that file has been handled, the
    exception is caught by the handler of the method, which logs it, and
    the run returns without looking up any other file and without a
    summary. *)
Theorem zero_batch_size_stops_the_run host local name id exts b p rest target b1 t1 :
  batch_size b = 0 ->
  path_exists host local = true ->
  scan exts (rglob host local) = p :: rest ->
  destination name id b = (inr (Some target), b1, t1) ->
  let r := upload_with_breaks host local name id exts b in
  result r = inr tt /\
  attempts (trace r) = [(Str.basename p, target)] /\
  reported_total (trace r) = [] /\
  In (Log ERROR (MErrOccurred (exc_str ZeroDivisionError))) (trace r).
Proof.
  intros HB Hp Hfiles Hd. cbv zeta.
  destruct (upload_with_breaks_stages host local name id exts b)
    as [(Hp' & _)|[(_ & Hf & _)|(_ & _ & o & b1' & t1' & Hd' & Er)]];
    [congruence | congruence |].
  rewrite Hd in Hd'. inversion Hd'; subst o b1' t1'. clear Hd'.
  destruct (destination_spec name id b)
    as (o' & b1' & t1' & E & (_ & Eb & _) & (A1 & _) & _).
  rewrite Hd in E. inversion E; subst o' b1' t1'. clear E.
  destruct (destination_no_summary name id b) as [T1 _].
  rewrite Hd in T1. unfold trace in T1. cbn [snd] in T1.
  rewrite Hfiles in Er. rewrite upload_loop_cons in Er.
  assert (T0 : reported_total (trace (upload_file host p target b1)) = [])
    by (upload_cases b1; reflexivity).
  upload_facts host p target b1. cbv zeta in Er.
  destruct (counted_fields x b0) as (Eb' & _).
  assert (Z0 : (batch_size (counted x b0) =? 0) = true)
    by (apply Z.eqb_eq; congruence).
  rewrite Z0 in Er. rewrite Er. unfold result, trace. cbn [fst snd].
  rewrite !attempts_app, !reported_total_app, A1, T1, Hatt, T0.
  repeat split.
  apply in_or_app. right. apply in_or_app. right. apply in_or_app. right.
  apply in_or_app. right. left. reflexivity.
Qed.

Lemma zero_batch_size_stops_the_run_witness :
  let b := zero_batch_bot (empty_service []) in
  let r := upload_with_breaks sample_host "d" None None None b in
  batch_size b = 0 /\
  path_exists sample_host "d" = true /\
  scan None (rglob sample_host "d") = "d/a.txt" :: ["d/sub/a.txt"; "d/b.JPG"] /\
  destination None None b = (inr (Some "root"), b, []) /\
  result r = inr tt /\
  attempts (trace r) = [(Str.basename "d/a.txt", "root")] /\
  reported_total (trace r) = [] /\
  In (Log ERROR (MErrOccurred (exc_str ZeroDivisionError))) (trace r).
Proof.
  cbv zeta.
  split; [reflexivity|]. split; [reflexivity|]. split; [reflexivity|].
  split; [reflexivity|].
  exact (zero_batch_size_stops_the_run sample_host "d" None None None
           (zero_batch_bot (empty_service [])) "d/a.txt" ["d/sub/a.txt"; "d/b.JPG"]
           "root" _ [] eq_refl eq_refl eq_refl eq_refl).
Defined.

(** X16. A non-empty folder identifier takes precedence over the folder
    name: the run is the same with and without the name, it asks the
    remote for no folder and creates none, and every lookup is made in the
    folder of that identifier, which is not checked to exist. *)
Theorem folder_id_takes_precedence host local name i exts b :
  Str.nonempty i = true ->
  let r := upload_with_breaks host local name (Some i) exts b in
  r = upload_with_breaks host local None (Some i) exts b /\
  folder_creates (trace r) = [] /\
  Forall (fun a => snd a = i) (attempts (trace r)).
Proof.
  intros Hi. cbv zeta.
  assert (D : forall n, destination n (Some i) b =
                        (inr (Some i), b, [Log INFO (MUsingFolder i)])).
  { intros n. rewrite destination_eq. cbn [truthy]. rewrite Hi. reflexivity. }
  split; [|split].
  - rewrite !upload_with_breaks_eq. cbv zeta. rewrite !D. reflexivity.
  - destruct (upload_with_breaks_calls host local name (Some i) exts b)
      as [(_ & Hapi & _)|(Hp & Hf & _)].
    + apply no_api_no_calls in Hapi. tauto.
    + destruct (upload_with_breaks_resolved host local name (Some i) exts b i b _
                  Hp Hf (D name)) as (G & _). rewrite G. reflexivity.
  - destruct (upload_with_breaks_calls host local name (Some i) exts b)
      as [(_ & Hapi & _)|(Hp & Hf & _)].
    + apply no_api_no_calls in Hapi. destruct Hapi as (-> & _). constructor.
    + destruct (upload_with_breaks_resolved host local name (Some i) exts b i b _
                  Hp Hf (D name)) as (_ & A & _). exact A.
Qed.

Lemma folder_id_takes_precedence_witness :
  let b := new_bot (empty_service []) in
  let r := upload_with_breaks sample_host "d" (Some "uploads") (Some "f7") None b in
  Str.nonempty "f7" = true /\
  r = upload_with_breaks sample_host "d" None (Some "f7") None b /\
  folder_creates (trace r) = [] /\
  Forall (fun a => snd a = "f7") (attempts (trace r)).
Proof.
  cbv zeta. split; [reflexivity|].
  exact (folder_id_takes_precedence sample_host "d" (Some "uploads") "f7" None
           (new_bot (empty_service [])) eq_refl).
Defined.

(** X17. A run that logs no error has uploaded everything: there is one
    folder in which every lookup of the run was made and under which, at
    the end, a file is listed with the base name of each discovered
    path. *)
Theorem error_free_run_uploads_everything host local name id exts b :
  let r := upload_with_breaks host local name id exts b in
  quiet (trace r) = true ->
  exists target,
    Forall (fun a => snd a = target) (attempts (trace r)) /\
    forall p, In p (scan exts (rglob host local)) ->
      present (Str.basename p) target (service (final r)) = true.
Proof.
  cbv zeta. intros Hq.
  destruct (clean_run host local name id exts b Hq)
    as (Hp & [(Hnil & _)|(target & b1 & t1 & Hf & Hd & _ & _ & Hpres)]).
  - exists "root". rewrite Hnil. split; [|intros p []].
    destruct (upload_with_breaks_calls host local name id exts b)
      as [(_ & Hapi & _)|(_ & Hf & _)]; [|contradiction].
    apply no_api_no_calls in Hapi. destruct Hapi as (-> & _). constructor.
  - exists target. split; [|exact Hpres].
    destruct (upload_with_breaks_resolved host local name id exts b target b1 t1
                Hp Hf Hd) as (_ & A & _). exact A.
Qed.

Lemma error_free_run_uploads_everything_witness :
  let b := new_bot (empty_service []) in
  let r := upload_with_breaks sample_host "d" (Some "uploads") None None b in
  quiet (trace r) = true /\
  exists target,
    Forall (fun a => snd a = target) (attempts (trace r)) /\
    forall p, In p (scan None (rglob sample_host "d")) ->
      present (Str.basename p) target (service (final r)) = true.
Proof.
  cbv zeta.
  assert (H : quiet (trace (upload_with_breaks sample_host "d" (Some "uploads") None None
                              (new_bot (empty_service [])))) = true) by reflexivity.
  split; [exact H|].
  exact (error_free_run_uploads_everything sample_host "d" (Some "uploads") None None
           (new_bot (empty_service [])) H).
Defined.

(** ** Authentication and [main] *)



Lemma observers_of_calls t :
  attempts t = flat_map attempt_of (map Api (api_calls t)) /\
  uploads t = flat_map upload_of (map Api (api_calls t)) /\
  folder_creates t = flat_map folder_create_of (map Api (api_calls t)).
Proof.
  unfold attempts, uploads, folder_creates, api_calls.
  induction t as [|e t (IH1 & IH2 & IH3)]; [auto|].
  destruct e; cbn [flat_map api_of attempt_of upload_of folder_create_of app map];
    rewrite ?map_app, ?flat_map_app; cbn [map flat_map app];
    rewrite <- ?IH1, <- ?IH2, <- ?IH3, ?app_nil_r; auto.
Qed.

Lemma list_folders_calls parent b :
  let r := list_folders parent b in
  (exists o, result r = inr o) /\
  store (service (final r)) = store (service b) /\
  api_calls (trace r) =
    [FilesList {| q_name := None; q_parents := parent; q_mimeType := Some folder_mime |}].
Proof.
  cbv zeta. rewrite list_folders_eq. cbv zeta.
  destruct (faulty b); [cbn; rewrite tick_store; eauto|].
  destruct (filter _ (store (service b))) as [|f rest];
    [cbn; rewrite tick_store; eauto|].
  unfold result, final, trace, api_calls. cbn [fst snd].
  rewrite tick_store. split; [eauto|]. split; [reflexivity|].
  cbn [flat_map api_of app map]. rewrite !flat_map_app. cbn [flat_map api_of app].
  f_equal. rewrite app_nil_r.
  induction rest as [|g rest IH]; [reflexivity | exact IH].
Qed.

(** X19. Started with [--list-folders], the program only reads: [main]
    returns normally, makes at most one call on the remote service, which
    is not a lookup of a file, a transfer or a folder creation, and leaves
    the remote store as it was. *)
Theorem list_mode_only_reads host argv sv :
  list_mode argv = true ->
  let r := main host argv sv in
  result r = inr tt /\
  store (final r) = store sv /\
  (List.length (api_calls (trace r)) <= 1)%nat /\
  attempts (trace r) = [] /\ uploads (trace r) = [] /\ folder_creates (trace r) = [].
Proof.
  intros Hl. cbv zeta.
  remember (main host argv sv) as r eqn:Er.
  unfold main, try_except in Er. unfold bind at 1 in Er.
  destruct (authenticate_quiet host "credentials.json" "token.json" sv) as [Hs Ha].
  destruct (_authenticate host "credentials.json" "token.json" sv) as [[[e|[]] s1] t1];
    unfold final, trace in Hs, Ha; cbn [fst snd] in Hs, Ha; subst s1.
  - cbv [bind emit] in Er. subst r. unfold result, final, trace. cbn [fst snd].
    match goal with
    | |- context [attempts ?t] => destruct (observers_of_calls t) as (A & U & G)
    end.
    rewrite A, U, G, api_calls_app, Ha. cbn. repeat split; lia.
  - rewrite Hl in Er. cbv [bind get ret emit on_bot] in Er.
    destruct (list_folders_calls "root" (set_service sv (new_bot sv)))
      as ((o & Hr) & Hst & Hapi).
    destruct (list_folders "root" (set_service sv (new_bot sv))) as [[r1 b1] t2].
    unfold result, final, trace in Hr, Hst, Hapi. cbn [fst snd] in Hr, Hst, Hapi.
    subst r1 r. unfold result, final, trace. cbn [fst snd app].
    rewrite app_nil_r.
    match goal with
    | |- context [attempts ?t] => destruct (observers_of_calls t) as (A & U & G)
    end.
    rewrite A, U, G, api_calls_app, Ha.
    change (api_calls (Print ?x :: t2)) with (api_calls t2). rewrite Hapi.
    cbn. repeat split; auto.
Qed.

Lemma list_mode_only_reads_witness :
  let sv := {| store := [uploads_folder]; next_id := 0; faults := [] |} in
  let r := main token_host ["main.py"; "--list-folders"] sv in
  list_mode ["main.py"; "--list-folders"] = true /\
  result r = inr tt /\
  store (final r) = store sv /\
  (List.length (api_calls (trace r)) <= 1)%nat /\
  attempts (trace r) = [] /\ uploads (trace r) = [] /\ folder_creates (trace r) = [].
Proof.
  cbv zeta. split; [reflexivity|].
  exact (list_mode_only_reads token_host ["main.py"; "--list-folders"]
           {| store := [uploads_folder]; next_id := 0; faults := [] |} eq_refl).
Defined.

(** What the listing prints on the sample service. *)
Example list_mode_prints :
  prints (trace (main token_host ["main.py"; "--list-folders"]
                   {| store := [uploads_folder]; next_id := 0; faults := [] |})) =
  ["Listing available folders in Google Drive...";
   newline ++ "Available folders:";
   Str.repeat "-" 50;
   "Name: uploads" ++ tab ++ "ID: f7";
   Str.repeat "-" 50].
Proof. reflexivity. Qed.

(** X20. [main] never lets an exception escape, and whatever it does it
    leaves the resources of the remote store in place: it returns
    normally, the store at the end is the store at the start with new
    resources after it, and the only folder it may ask the remote to create
    is the one named [uploads], directly under ['root']. *)
Theorem main_returns_normally host argv sv :
  let r := main host argv sv in
  result r = inr tt /\
  (exists ext, store (final r) = (store sv ++ ext)%list) /\
  Forall (eq (folder_body DRIVE_FOLDER_NAME "root")) (folder_creates (trace r)).
Proof.
  cbv zeta.
  remember (main host argv sv) as r eqn:Er.
  unfold main, try_except in Er. unfold bind at 1 in Er.
  destruct (authenticate_quiet host "credentials.json" "token.json" sv) as [Hs Ha].
  destruct (_authenticate host "credentials.json" "token.json" sv) as [[[e|[]] s1] t1];
    unfold final, trace in Hs, Ha; cbn [fst snd] in Hs, Ha; subst s1.
  - cbv [bind emit] in Er. subst r. unfold result, final, trace. cbn [fst snd].
    split; [reflexivity|]. split; [exists []; rewrite app_nil_r; reflexivity|].
    rewrite folder_creates_app.
    destruct (no_api_no_calls _ Ha) as (_ & _ & ->). constructor.
  - destruct (no_api_no_calls _ Ha) as (_ & _ & G1).
    destruct (list_mode argv).
    + cbv [bind get ret emit on_bot] in Er.
      destruct (list_folders_calls "root" (set_service sv (new_bot sv)))
        as ((o & Hr) & Hst & Hapi).
      destruct (list_folders "root" (set_service sv (new_bot sv))) as [[r1 b1] t2].
      unfold result, final, trace in Hr, Hst, Hapi. cbn [fst snd] in Hr, Hst, Hapi.
      subst r1 r. unfold result, final, trace. cbn [fst snd app].
      split; [reflexivity|]. split; [exists []; rewrite app_nil_r; exact Hst|].
      rewrite app_nil_r, folder_creates_app, G1.
      change (folder_creates (Print ?x :: t2)) with (folder_creates t2).
      destruct (observers_of_calls t2) as (_ & _ & G2). rewrite G2, Hapi. constructor.
    + cbv [bind get ret emit banner on_bot truthy DRIVE_FOLDER_ID] in Er.
      pose proof (upload_with_breaks_grows host LOCAL_FOLDER (Some DRIVE_FOLDER_NAME)
                    None FILE_EXTENSIONS (set_service sv (new_bot sv)))
        as (Hr & ext & Hst).
      assert (G2 : Forall (eq (folder_body DRIVE_FOLDER_NAME "root"))
                     (folder_creates
                        (trace (upload_with_breaks host LOCAL_FOLDER
                                  (Some DRIVE_FOLDER_NAME) None FILE_EXTENSIONS
                                  (set_service sv (new_bot sv)))))).
      { destruct (upload_with_breaks_calls host LOCAL_FOLDER (Some DRIVE_FOLDER_NAME)
                    None FILE_EXTENSIONS (set_service sv (new_bot sv)))
          as [(_ & Hapi & _)|(_ & _ & o & b1 & t1' & Hd & -> & _)].
        - destruct (no_api_no_calls _ Hapi) as (_ & _ & ->). constructor.
        - destruct (destination_folder_creates _ _ _ _ _ _ Hd) as [->|(n & En & ->)];
            [constructor|]. inversion En; subst n. repeat constructor. }
      destruct (upload_with_breaks host LOCAL_FOLDER (Some DRIVE_FOLDER_NAME) None
                  FILE_EXTENSIONS (set_service sv (new_bot sv))) as [[r1 b1] t2].
      unfold result, final, trace in Hr, Hst, G2. cbn [fst snd] in Hr, Hst, G2.
      subst r1 r. unfold result, final, trace. cbn [fst snd].
      split; [reflexivity|]. split; [exists ext; exact Hst|].
      rewrite !folder_creates_app, G1. cbn [app].
      repeat change (folder_creates (Print ?x :: ?l)) with (folder_creates l).
      exact G2.
Qed.

(** ** One flat destination, file by file *)

(** What the loop adds to the store is flat: every new resource sits
    directly under the target and bears the base name of one of the
    files. *)
Lemma upload_loop_adds_flat host target total all files :
  forall i s f b,
    incl files all ->
    exists ext,
      store (service (final (upload_loop host target total i files s f b))) =
      (store (service b) ++ ext)%list /\
      Forall (fun r => rf_parents r = [target] /\
                       In (rf_name r) (map Str.basename all)) ext.
Proof.
  induction files as [|p rest IH]; intros i s f b Hin.
  - exists []. cbn. rewrite app_nil_r. split; [reflexivity | constructor].
  - rewrite upload_loop_cons.
    assert (H1 : exists ext,
               store (service (final (upload_file host p target b))) =
               (store (service b) ++ ext)%list /\
               Forall (fun r => rf_parents r = [target] /\
                                In (rf_name r) (map Str.basename all)) ext).
    { upload_cases b; cbn [final fst snd]; rewrite ?stored_store, ?tick_store;
        try (exists []; rewrite app_nil_r; split; [reflexivity | constructor]).
      eexists. split; [reflexivity|]. repeat constructor.
      cbn. apply in_map. apply Hin. left. reflexivity. }
    destruct H1 as (ext1 & S1 & F1).
    assert (Hrest : incl rest all) by (intros q Hq; apply Hin; right; exact Hq).
    destruct (upload_file host p target b) as [[[e|ok] b1] t1];
      unfold final in *; cbn [fst snd] in *; [exists ext1; auto|]. cbv zeta.
    destruct (counted_fields ok b1) as (_ & _ & Esv).
    destruct (IH (i + 1) (if ok then s + 1 else s) (if ok then f else f + 1)
                 (counted ok b1) Hrest) as (ext2 & S2 & F2).
    rewrite Esv, S1 in S2.
    destruct (batch_size (counted ok b1) =? 0);
      [cbn [fst snd]; rewrite Esv; exists ext1; auto|].
    destruct (pause_due (counted ok b1) i total);
      [destruct (break_duration (counted ok b1) <? 0);
       [cbn [fst snd]; rewrite Esv; exists ext1; auto|]|];
      destruct (upload_loop _ _ _ _ _ _ _ _) as [[r3 b3] t3];
      unfold final in *; cbn [fst snd] in *;
      exists (ext1 ++ ext2)%list; rewrite app_assoc;
      (split; [exact S2 | apply Forall_app; auto]).
Qed.

(** C10. Whatever the depth at which a file was discovered, every lookup of
    a run is made in one target folder and every transfer creates, directly
    under that folder, a resource named by the base name of a discovered
    path; the only folder a run may create is the destination itself, under
    ['root'].  Once the destination is resolved, every discovered file is
    looked up in the target under its base name, in discovery order; what
    the run adds to the store sits directly under the target and bears the
    base name of a discovered file, so that no sub-directory of the source
    appears remotely; and after a run without error every discovered base
    name is listed under the target.  Hence two paths with one base name
    collide: once the first has been handled with success, the second is
    neither transferred nor stored. *)
Theorem uploads_are_flat host local name id exts b :
  let r := upload_with_breaks host local name id exts b in
  let files := scan exts (rglob host local) in
  (exists target,
     Forall (fun a => snd a = target) (attempts (trace r)) /\
     Forall (flat_upload target files) (uploads (trace r))) /\
  Forall (fun body => b_parents body = ["root"] /\ name = Some (b_name body))
         (folder_creates (trace r)) /\
  (forall target b1 t1,
     path_exists host local = true ->
     files <> [] ->
     destination name id b = (inr (Some target), b1, t1) ->
     (exists ext,
        store (service (final r)) = (store (service b1) ++ ext)%list /\
        Forall (fun f => rf_parents f = [target] /\
                         In (rf_name f) (map Str.basename files)) ext) /\
     (batch_size b <> 0 -> 0 <= break_duration b ->
      attempts (trace r) = map (fun p => (Str.basename p, target)) files) /\
     (quiet (trace r) = true ->
      forall p, In p files ->
        present (Str.basename p) target (service (final r)) = true)) /\
  (forall p q target b',
     Str.basename p = Str.basename q ->
     let first := upload_file host p target b' in
     result first = inr true ->
     let second := upload_file host q target (final first) in
     uploads (trace second) = [] /\
     store (service (final second)) = store (service (final first))).
Proof.
  cbv zeta. split; [|split; [|split]].
  - destruct (upload_with_breaks_calls host local name id exts b)
      as [(_ & Hapi & _)|(Hp & Hf & o & b1 & t1 & Hd & _ & Hrest)].
    + exists "root". destruct (no_api_no_calls _ Hapi) as (-> & -> & _).
      split; constructor.
    + destruct o as [target|].
      * destruct (upload_with_breaks_resolved host local name id exts b target b1 t1
                    Hp Hf Hd) as (_ & A & U & _).
        exists target. auto.
      * destruct Hrest as (-> & -> & _). exists "root". split; constructor.
  - destruct (upload_with_breaks_calls host local name id exts b)
      as [(_ & Hapi & _)|(Hp & Hf & o & b1 & t1 & Hd & -> & _)].
    + destruct (no_api_no_calls _ Hapi) as (_ & _ & ->). constructor.
    + destruct (destination_folder_creates _ _ _ _ _ _ Hd) as [->|(n & -> & ->)];
        repeat constructor.
  - intros target b1 t1 Hp Hf Hd. split; [|split].
    + destruct (upload_with_breaks_calls host local name id exts b)
        as [([Hp'|Hf'] & _)|(_ & _ & o & b1' & t1' & Hd' & _ & Hrest)];
        [congruence | contradiction |].
      rewrite Hd in Hd'. inversion Hd'; subst o b1' t1'. clear Hd'.
      cbv zeta in Hrest. destruct Hrest as (_ & _ & -> & _).
      apply upload_loop_adds_flat. apply incl_refl.
    + intros Hb Hbr.
      destruct (upload_with_breaks_resolved host local name id exts b target b1 t1
                  Hp Hf Hd) as (_ & _ & _ & _ & A).
      apply A; assumption.
    + intros Hq.
      destruct (clean_run host local name id exts b Hq)
        as (_ & [(Hnil & _)|(target' & b1' & t1' & _ & Hd' & _ & _ & Hpres)]);
        [contradiction|].
      rewrite Hd in Hd'. inversion Hd'; subst target' b1' t1'. exact Hpres.
  - intros p q target b' Hname Hfirst.
    apply and_comm. apply upload_file_idle. rewrite <- Hname.
    apply upload_file_present. exact Hfirst.
Qed.

Lemma uploads_are_flat_witness :
  let b := new_bot (empty_service []) in
  let r := upload_with_breaks sample_host "d" (Some "uploads") None None b in
  let files := scan None (rglob sample_host "d") in
  let b1 := snd (fst (destination (Some "uploads") None b)) in
  let t1 := snd (destination (Some "uploads") None b) in
  let first := upload_file sample_host "d/a.txt" "root" b in
  let second := upload_file sample_host "d/sub/a.txt" "root" (final first) in
  path_exists sample_host "d" = true /\
  files <> [] /\
  destination (Some "uploads") None b = (inr (Some "id0"), b1, t1) /\
  batch_size b <> 0 /\ 0 <= break_duration b /\
  quiet (trace r) = true /\
  Str.basename "d/a.txt" = Str.basename "d/sub/a.txt" /\
  result first = inr true /\
  (exists ext,
     store (service (final r)) = (store (service b1) ++ ext)%list /\
     Forall (fun f => rf_parents f = ["id0"] /\
                      In (rf_name f) (map Str.basename files)) ext) /\
  attempts (trace r) = [("a.txt", "id0"); ("a.txt", "id0"); ("b.JPG", "id0")] /\
  (forall p, In p files ->
     present (Str.basename p) "id0" (service (final r)) = true) /\
  uploads (trace second) = [] /\
  store (service (final second)) = store (service (final first)).
Proof.
  cbv zeta.
  assert (H1 : path_exists sample_host "d" = true) by reflexivity.
  assert (H2 : scan None (rglob sample_host "d") <> []) by (vm_compute; discriminate).
  assert (H3 : destination (Some "uploads") None (new_bot (empty_service [])) =
               (inr (Some "id0"),
                snd (fst (destination (Some "uploads") None (new_bot (empty_service [])))),
                snd (destination (Some "uploads") None (new_bot (empty_service [])))))
    by reflexivity.
  assert (H4 : batch_size (new_bot (empty_service [])) <> 0) by (cbn; lia).
  assert (H5 : 0 <= break_duration (new_bot (empty_service []))) by (cbn; lia).
  assert (H6 : quiet (trace (upload_with_breaks sample_host "d" (Some "uploads") None None
                               (new_bot (empty_service [])))) = true) by reflexivity.
  assert (H7 : Str.basename "d/a.txt" = Str.basename "d/sub/a.txt") by reflexivity.
  assert (H8 : result (upload_file sample_host "d/a.txt" "root"
                         (new_bot (empty_service []))) = inr true) by reflexivity.
  repeat (split; [assumption|]).
  destruct (uploads_are_flat sample_host "d" (Some "uploads") None None
              (new_bot (empty_service []))) as (_ & _ & Hall & Hcol).
  destruct (Hall "id0" _ _ H1 H2 H3) as (Hext & Hatt & Hpres).
  split; [exact Hext|].
  split; [exact (Hatt H4 H5)|].
  split; [exact (Hpres H6)|].
  exact (Hcol "d/a.txt" "d/sub/a.txt" "root" (new_bot (empty_service [])) H7 H8).
Defined.
